(** * Course controller and course routes of the learning-platform backend

    A shallow embedding of [src/controllers/CourseController.ts] and of the
    route table [CourseRoute.ts]: request handlers that validate their input,
    walk the ownership chain content -> topic -> course -> teacher -> user,
    and call the storage client.

    The handlers are written in a state-and-exception monad over a [World]
    (the relational tables, the journal of write calls issued to the storage
    client, and the disk the upload middleware stages files on). *)

From Stdlib Require Import ZArith NArith String Ascii List Bool.
From Stdlib.Strings Require Import Byte.
From stdpp Require Import base option list gmap strings fin_maps.

Local Open Scope string_scope.

(** ** JavaScript values carried by a request body *)

(** A body field is an arbitrary JSON value, or [undefined] when the field is
    absent.  Numbers are kept as integers: the handlers only ever observe
    whether a number is zero. *)
#[local] Unset Elimination Schemes.
Inductive JsValue : Type :=
  | JUndefined
  | JNull
  | JBool (b : bool)
  | JNum (n : Z)
  | JStr (s : string)
  | JArr (items : list JsValue)
  | JObj (props : list (string * JsValue)).
#[local] Set Elimination Schemes.

(** ToBoolean. *)
Definition truthy (v : JsValue) : bool :=
  match v with
  | JUndefined | JNull => false
  | JBool b => b
  | JNum n => negb (n =? 0)%Z
  | JStr s => negb (String.eqb s "")
  | JArr _ | JObj _ => true
  end.

(** [a && b] on values: the first falsy operand, else the last one. *)
Definition js_and (a b : JsValue) : JsValue :=
  if truthy a then b else a.

(** [isPublic === "true" || isPublic === true] *)
Definition parseIsPublic (isPublic : JsValue) : bool :=
  match isPublic with
  | JStr s => String.eqb s "true"
  | JBool b => b
  | _ => false
  end.

(** [validTypes.includes(type)] with
    [validTypes = ["TEXT", "LINK", "YOUTUBE_VIDEO"]]. *)
Definition validTypes : list string := ["TEXT"; "LINK"; "YOUTUBE_VIDEO"].

Definition includes (l : list string) (v : JsValue) : bool :=
  match v with
  | JStr s => existsb (String.eqb s) l
  | _ => false
  end.

(** ** HTTP status constants *)

(** Modelled from the spec: [constants/http] is not among the sources; the
    values are the ones section 6 of the specification lists. *)
Definition OK : nat := 200.
Definition CREATED : nat := 201.
Definition BAD_REQUEST : nat := 400.
Definition UNAUTHORIZED : nat := 401.
Definition NOT_FOUND : nat := 404.

(** ** Base64, as produced by [buffer.toString("base64")] *)

Definition base64_alphabet : string :=
  "ABCDEFGHIJKLMNOPQRSTUVWXYZabcdefghijklmnopqrstuvwxyz0123456789+/".

Definition base64_digit (n : N) : ascii :=
  match String.get (N.to_nat n) base64_alphabet with
  | Some c => c
  | None => "="%char
  end.

Fixpoint base64 (bs : list Byte.byte) : string :=
  match bs with
  | [] => ""
  | [a] =>
      let x := Byte.to_N a in
      String (base64_digit (x / 4))
        (String (base64_digit ((x mod 4) * 16)) "==")
  | [a; b] =>
      let x := Byte.to_N a in
      let y := Byte.to_N b in
      String (base64_digit (x / 4))
        (String (base64_digit ((x mod 4) * 16 + y / 16))
           (String (base64_digit ((y mod 16) * 4)) "="))
  | a :: b :: c :: rest =>
      let x := Byte.to_N a in
      let y := Byte.to_N b in
      let z := Byte.to_N c in
      String (base64_digit (x / 4))
        (String (base64_digit ((x mod 4) * 16 + y / 16))
           (String (base64_digit ((y mod 16) * 4 + z / 64))
              (String (base64_digit (z mod 64)) (base64 rest))))
  end%N.

(** ** The relational data model *)

Abbreviation Id := string (only parsing).

Module User.
Record t : Type := mk { userId : Id; firstName : string; lastName : string }.
End User.

Module Teacher.
Record t : Type := mk { teacherId : Id; userId : Id }.
End Teacher.

(** Subjects, enrollments, quizzes and exams are only ever read and joined;
    their columns other than the keys stay opaque. *)
Module Subject.
Record t : Type := mk { subjectId : Id; columns : JsValue }.
End Subject.

Module Related.
Record t : Type := mk { id : Id; courseId : Id; columns : JsValue }.
End Related.

(** Columns filled from a request body hold the submitted value; [image] is
    the Base64 text, or [None] for a null column. *)
Module Course.
Record t : Type := mk {
  courseId : Id;
  title : JsValue;
  description : JsValue;
  isPublic : bool;
  teacherId : Id;
  subjectId : JsValue;
  image : option string }.
End Course.

Module Topic.
Record t : Type := mk { topicId : Id; title : JsValue; courseId : Id }.
End Topic.

Module Content.
Record t : Type := mk {
  contentId : Id;
  type : JsValue;
  data : JsValue;
  topicId : Id }.
End Content.

(** ** Write calls issued to the storage client *)

Record CourseCreateData : Type := {
  cc_title : JsValue;
  cc_description : JsValue;
  cc_isPublic : bool;
  cc_teacherId : Id;
  cc_subjectId : JsValue;
  cc_image : string }.

Record CourseUpdateData : Type := {
  cu_title : JsValue;
  cu_description : JsValue;
  cu_isPublic : bool;
  cu_subjectId : JsValue;
  cu_image : option string }.

Inductive Write : Type :=
  | CourseCreate (d : CourseCreateData)
  | CourseUpdate (courseId : JsValue) (d : CourseUpdateData)
  | CourseDelete (courseId : JsValue)
  | TopicCreate (title : JsValue) (courseId : JsValue)
  | TopicUpdate (topicId : JsValue) (title : JsValue)
  | TopicDelete (topicId : JsValue)
  | ContentCreate (type data : JsValue) (topicId : JsValue)
  | ContentUpdate (contentId : JsValue) (type data : JsValue)
  | ContentDelete (contentId : JsValue).

(** ** The world a handler runs in *)

Record World : Type := {
  users : gmap Id User.t;
  teachers : gmap Id Teacher.t;
  subjects : gmap Id Subject.t;
  courses : gmap Id Course.t;
  topics : gmap Id Topic.t;
  contents : gmap Id Content.t;
  enrollments : list Related.t;
  quizzes : list Related.t;
  exams : list Related.t;
  (** every create, update and delete call issued so far, newest first *)
  journal : list Write;
  (** files staged by the upload middleware, by path *)
  disk : gmap string (list Byte.byte) }.

Definition issue (c : Write) (w : World) : World :=
  {| users := users w; teachers := teachers w; subjects := subjects w;
     courses := courses w; topics := topics w; contents := contents w;
     enrollments := enrollments w; quizzes := quizzes w; exams := exams w;
     journal := c :: journal w; disk := disk w |}.

Definition with_courses (m : gmap Id Course.t) (w : World) : World :=
  {| users := users w; teachers := teachers w; subjects := subjects w;
     courses := m; topics := topics w; contents := contents w;
     enrollments := enrollments w; quizzes := quizzes w; exams := exams w;
     journal := journal w; disk := disk w |}.

Definition with_topics (m : gmap Id Topic.t) (w : World) : World :=
  {| users := users w; teachers := teachers w; subjects := subjects w;
     courses := courses w; topics := m; contents := contents w;
     enrollments := enrollments w; quizzes := quizzes w; exams := exams w;
     journal := journal w; disk := disk w |}.

Definition with_related (enrolled quizzed examined : list Related.t)
    (w : World) : World :=
  {| users := users w; teachers := teachers w; subjects := subjects w;
     courses := courses w; topics := topics w; contents := contents w;
     enrollments := enrolled; quizzes := quizzed; exams := examined;
     journal := journal w; disk := disk w |}.

Definition with_contents (m : gmap Id Content.t) (w : World) : World :=
  {| users := users w; teachers := teachers w; subjects := subjects w;
     courses := courses w; topics := topics w; contents := m;
     enrollments := enrollments w; quizzes := quizzes w; exams := exams w;
     journal := journal w; disk := disk w |}.

(** ** Exceptions, outcomes and the handler monad *)

(** [appAssert] throws an [AppError] carrying the status and the message; the
    storage client, [fs.readFileSync] and a property read on [null] throw
    errors of their own, and so does the router when a path parameter
    cannot be decoded. *)
Inductive Exn : Type :=
  | AppError (statusCode : nat) (message : string)
  | ClientError
  | IOError
  | TypeError
  | URIError.

Inductive Outcome (A : Type) : Type :=
  | Returned (a : A)
  | Threw (e : Exn).
Arguments Returned {A} a.
Arguments Threw {A} e.

Definition Handler (A : Type) : Type := World -> Outcome A * World.

Definition ret {A} (a : A) : Handler A := fun w => (Returned a, w).

Definition throw {A} (e : Exn) : Handler A := fun w => (Threw e, w).

Definition bind {A B} (m : Handler A) (k : A -> Handler B) : Handler B :=
  fun w =>
    match m w with
    | (Returned a, w') => k a w'
    | (Threw e, w') => (Threw e, w')
    end.

(** [try { m } catch (error) { h }] *)
Definition try_catch {A} (m : Handler A) (h : Exn -> Handler A) : Handler A :=
  fun w =>
    match m w with
    | (Returned a, w') => (Returned a, w')
    | (Threw e, w') => h e w'
    end.

Notation "'let*' x ':=' m 'in' k" := (bind m (fun x => k))
  (at level 10, x name, m at level 100, k at level 200, only parsing).

(** Modelled from the spec: [utils/appAssert] is not among the sources;
    section 7 of the specification has every handler assert its preconditions
    and fail with the first violated one, carrying the status. *)
Definition appAssert (condition : bool) (status : nat) (message : string)
  : Handler unit :=
  if condition then ret tt else throw (AppError status message).

(** The same assertion on the result of a lookup: [null] is falsy, a record
    is truthy, and the record is in scope afterwards. *)
Definition appAssertFound {A} (found : option A) (status : nat)
    (message : string) : Handler A :=
  match found with
  | Some a => ret a
  | None => throw (AppError status message)
  end.

(** ** The storage client *)

(** What a delete leaves of the rows below the deleted one: the topics and
    contents, and the enrollments, quizzes and exams. *)
Record Dependents : Type := {
  d_topics : gmap Id Topic.t;
  d_contents : gmap Id Content.t;
  d_enrollments : list Related.t;
  d_quizzes : list Related.t;
  d_exams : list Related.t }.

(** The relational schema and the storage engine are outside the sources.
    What the handlers depend on is taken as an interface: the identifier the
    engine gives the next created row, the engine's verdict on a write
    (column types, required columns, foreign keys and the like), and the
    referential action of the schema, that is, what a delete that is carried
    out leaves of the dependent rows. *)
Class Storage : Type := {
  newId : World -> Id;
  admits : World -> Write -> bool;
  onDelete : World -> Write -> Dependents }.

(** A column left [undefined] in [data] is not written: on creation it takes
    the null default, on update it keeps its value. *)
Definition column_init (v : JsValue) : JsValue :=
  match v with JUndefined => JNull | _ => v end.

Definition column_set (old new : JsValue) : JsValue :=
  match new with JUndefined => old | _ => new end.

(** A [where] clause on a key wants a string; anything else is refused by the
    client before a query is made. *)
Definition where_key (v : JsValue) : option Id :=
  match v with JStr s => Some s | _ => None end.

Definition new_course (id : Id) (d : CourseCreateData) : Course.t :=
  {| Course.courseId := id;
     Course.title := column_init (cc_title d);
     Course.description := column_init (cc_description d);
     Course.isPublic := cc_isPublic d;
     Course.teacherId := cc_teacherId d;
     Course.subjectId := column_init (cc_subjectId d);
     Course.image := Some (cc_image d) |}.

Definition updated_course (c : Course.t) (d : CourseUpdateData) : Course.t :=
  {| Course.courseId := Course.courseId c;
     Course.title := column_set (Course.title c) (cu_title d);
     Course.description := column_set (Course.description c) (cu_description d);
     Course.isPublic := cu_isPublic d;
     Course.teacherId := Course.teacherId c;
     Course.subjectId := column_set (Course.subjectId c) (cu_subjectId d);
     Course.image := cu_image d |}.

Definition updated_topic (t : Topic.t) (title : JsValue) : Topic.t :=
  {| Topic.topicId := Topic.topicId t;
     Topic.title := column_set (Topic.title t) title;
     Topic.courseId := Topic.courseId t |}.

Definition updated_content (c : Content.t) (type data : JsValue) : Content.t :=
  {| Content.contentId := Content.contentId c;
     Content.type := column_set (Content.type c) type;
     Content.data := column_set (Content.data c) data;
     Content.topicId := Content.topicId c |}.

(** Relations loaded with a record ([include]); a relation whose row is
    missing reads as [null]. *)
Definition CourseWithTeacher : Type := Course.t * option Teacher.t.
Definition TopicWithCourse : Type := Topic.t * option CourseWithTeacher.
Definition ContentWithTopic : Type := Content.t * option TopicWithCourse.

Definition include_teacher (w : World) (c : Course.t) : CourseWithTeacher :=
  (c, teachers w !! Course.teacherId c).

Definition include_course (w : World) (t : Topic.t) : TopicWithCourse :=
  (t, include_teacher w <$> courses w !! Topic.courseId t).

Definition include_topic (w : World) (c : Content.t) : ContentWithTopic :=
  (c, include_course w <$> topics w !! Content.topicId c).

(** The teacher profile of a user: the row of the teacher table with that
    [userId]. *)
Definition teacher_of_user (w : World) (uid : Id) : option Teacher.t :=
  head (filter (fun t => Teacher.userId t = uid)
          (snd <$> map_to_list (teachers w))).

Section Client.
Context `{Storage}.

(** [prisma.<model>.findUnique({ where: { <key> }, include })]: the row
    under the key with its relations, [null] when there is none. *)
Definition findUnique {R A} (table : World -> gmap Id R)
    (include : World -> R -> A) (key : JsValue) : Handler (option A) :=
  fun w =>
    match where_key key with
    | Some id => (Returned (include w <$> table w !! id), w)
    | None => (Threw ClientError, w)
    end.

(** [prisma.teacher.findUnique({ where: { userId } })]; [userId] is a
    unique column of the teacher table. *)
Definition teacher_findUnique_userId (userId : option Id)
  : Handler (option Teacher.t) :=
  fun w =>
    match userId with
    | Some uid => (Returned (teacher_of_user w uid), w)
    | None => (Threw ClientError, w)
    end.

(** [prisma.course.findMany({ where, include })]: the rows that satisfy
    the predicate, in the order the engine lists them, each with its
    relations. *)
Definition course_findMany {A} (where_ : Course.t -> bool)
    (include : World -> Course.t -> A) : Handler (list A) :=
  fun w =>
    (Returned
       (include w <$>
          filter (fun c => where_ c = true)
            (snd <$> map_to_list (courses w))), w).

(** A write call is journalled first; it then throws when the engine
    refuses it or when it cannot be carried out, and otherwise changes the
    table. *)
Definition write {A} (c : Write) (effect : World -> option (A * World))
  : Handler A :=
  fun w =>
    let w1 := issue c w in
    if admits w c then
      match effect w1 with
      | Some (a, w2) => (Returned a, w2)
      | None => (Threw ClientError, w1)
      end
    else (Threw ClientError, w1).

(** A created row goes under the engine's next identifier, which has to be
    free. *)
Definition course_create (d : CourseCreateData) : Handler Course.t :=
  fun w =>
    write (CourseCreate d)
      (fun w1 =>
         let id := newId w in
         match courses w1 !! id with
         | Some _ => None
         | None =>
             let c := new_course id d in
             Some (c, with_courses (<[id := c]> (courses w1)) w1)
         end) w.

Definition topic_create (title courseId : JsValue) : Handler Topic.t :=
  fun w =>
    write (TopicCreate title courseId)
      (fun w1 =>
         let id := newId w in
         match topics w1 !! id, where_key courseId with
         | None, Some cid =>
             let t := {| Topic.topicId := id;
                         Topic.title := column_init title;
                         Topic.courseId := cid |} in
             Some (t, with_topics (<[id := t]> (topics w1)) w1)
         | _, _ => None
         end) w.

Definition content_create (type data topicId : JsValue)
  : Handler Content.t :=
  fun w =>
    write (ContentCreate type data topicId)
      (fun w1 =>
         let id := newId w in
         match contents w1 !! id, where_key topicId with
         | None, Some tid =>
             let c := {| Content.contentId := id;
                         Content.type := column_init type;
                         Content.data := column_init data;
                         Content.topicId := tid |} in
             Some (c, with_contents (<[id := c]> (contents w1)) w1)
         | _, _ => None
         end) w.

(** An update cannot be carried out when the row is gone. *)
Definition course_update (courseId : JsValue) (d : CourseUpdateData)
  : Handler Course.t :=
  write (CourseUpdate courseId d)
    (fun w1 =>
       id ← where_key courseId;
       c ← courses w1 !! id;
       let c' := updated_course c d in
       Some (c', with_courses (<[id := c']> (courses w1)) w1)).

Definition topic_update (topicId title : JsValue) : Handler Topic.t :=
  write (TopicUpdate topicId title)
    (fun w1 =>
       id ← where_key topicId;
       t ← topics w1 !! id;
       let t' := updated_topic t title in
       Some (t', with_topics (<[id := t']> (topics w1)) w1)).

Definition content_update (contentId type data : JsValue)
  : Handler Content.t :=
  write (ContentUpdate contentId type data)
    (fun w1 =>
       id ← where_key contentId;
       c ← contents w1 !! id;
       let c' := updated_content c type data in
       Some (c', with_contents (<[id := c']> (contents w1)) w1)).

(** A delete removes the named row from its table; what becomes of the rows
    below it (the topics, contents, enrollments, quizzes and exams of a
    course, the contents of a topic) is the schema's referential action. *)
Definition course_delete (courseId : JsValue) : Handler unit :=
  fun w =>
    write (CourseDelete courseId)
      (fun w1 =>
         id ← where_key courseId;
         _ ← courses w1 !! id;
         let below := onDelete w (CourseDelete courseId) in
         Some (tt,
               with_related (d_enrollments below) (d_quizzes below)
                 (d_exams below)
                 (with_contents (d_contents below)
                    (with_topics (d_topics below)
                       (with_courses (delete id (courses w1)) w1))))) w.

Definition topic_delete (topicId : JsValue) : Handler unit :=
  fun w =>
    write (TopicDelete topicId)
      (fun w1 =>
         id ← where_key topicId;
         _ ← topics w1 !! id;
         let below := onDelete w (TopicDelete topicId) in
         Some (tt,
               with_contents (d_contents below)
                 (with_topics (delete id (topics w1)) w1))) w.

Definition content_delete (contentId : JsValue) : Handler unit :=
  write (ContentDelete contentId)
    (fun w1 =>
       id ← where_key contentId;
       _ ← contents w1 !! id;
       Some (tt, with_contents (delete id (contents w1)) w1)).

End Client.

(** [fs.readFileSync(path)] *)
Definition readFileSync (path : string) : Handler (list Byte.byte) :=
  fun w =>
    match disk w !! path with
    | Some bytes => (Returned bytes, w)
    | None => (Threw IOError, w)
    end.

(** Reading a property of a loaded relation: a [null] relation throws. *)
Definition property {A} (relation : option A) : Handler A :=
  match relation with
  | Some a => ret a
  | None => throw TypeError
  end.

(** ** Requests and responses *)

Record Upload : Type := { path : string }.

(** [req.userId] is set by the authentication middleware and is [undefined]
    ([None]) when that middleware did not run. *)
Record Request : Type := {
  headers : gmap string string;
  userId : option Id;
  params : gmap string string;
  body : gmap string JsValue;
  file : option Upload }.

(** [req.params.<name>] and [req.body.<name>]; a missing property reads as
    [undefined]. *)
Definition param (req : Request) (name : string) : JsValue :=
  match params req !! name with
  | Some s => JStr s
  | None => JUndefined
  end.

Definition field (req : Request) (name : string) : JsValue :=
  default JUndefined (body req !! name).

(** [select: { firstName: true, lastName: true }] *)
Record UserNames : Type := { firstName : string; lastName : string }.

Record TeacherWithUser : Type := {
  tu_teacher : Teacher.t;
  tu_user : option UserNames }.

(** A topic as it is serialised; [tv_contents] is [None] when the query does
    not load the relation, so that the topic has no [contents] property. *)
Record TopicView : Type := {
  tv_topic : Topic.t;
  tv_contents : option (list Content.t) }.

Record CourseListItem : Type := {
  li_course : Course.t;
  li_teacher : option TeacherWithUser }.

Record PublicCourse : Type := {
  pc_course : Course.t;
  pc_teacher : option TeacherWithUser;
  pc_subject : option Subject.t;
  pc_topics : list TopicView }.

Record CourseDetail : Type := {
  cd_course : Course.t;
  cd_topics : list TopicView;
  cd_teacher : option TeacherWithUser;
  cd_enrollments : list Related.t;
  cd_subject : option Subject.t;
  cd_quizzes : list Related.t;
  cd_exams : list Related.t }.

Inductive Json : Type :=
  | JsonCourse (course : Course.t)
  | JsonCourses (courses : list CourseListItem)
  | JsonPublicCourses (courses : list PublicCourse)
  | JsonCourseDetail (course : CourseDetail)
  | JsonTopic (topic : Topic.t)
  | JsonContent (content : Content.t)
  | JsonContents (contents : list Content.t)
  | JsonMessage (message : string)
  | JsonError (error : string).

Record Response : Type := { status : nat; json : Json }.

(** [return res.status(s).json(b)] *)
Definition respond (s : nat) (b : Json) : Handler Response :=
  ret {| status := s; json := b |}.

(** ** The joins of the read queries *)

Definition user_names (u : User.t) : UserNames :=
  {| firstName := User.firstName u; lastName := User.lastName u |}.

(** [teacher: { include: { user: { select: { firstName, lastName } } } }] *)
Definition teacher_with_user (w : World) (c : Course.t)
  : option TeacherWithUser :=
  (fun t => {| tu_teacher := t;
               tu_user := user_names <$> users w !! Teacher.userId t |})
    <$> teachers w !! Course.teacherId c.

(** [subject: true] *)
Definition subject_of (w : World) (c : Course.t) : option Subject.t :=
  where_key (Course.subjectId c) ≫= fun id => subjects w !! id.

Definition contents_of (w : World) (t : Topic.t) : list Content.t :=
  filter (fun c => Content.topicId c = Topic.topicId t)
    (snd <$> map_to_list (contents w)).

(** [topics: { include: { contents } }], with the flag the query gives. *)
Definition topics_of (w : World) (include_contents : bool) (c : Course.t)
  : list TopicView :=
  (fun t => {| tv_topic := t;
               tv_contents :=
                 if include_contents then Some (contents_of w t) else None |})
    <$> filter (fun t => Topic.courseId t = Course.courseId c)
          (snd <$> map_to_list (topics w)).

Definition related_to (c : Course.t) (rows : list Related.t)
  : list Related.t :=
  filter (fun r => Related.courseId r = Course.courseId c) rows.

Definition list_item (w : World) (c : Course.t) : CourseListItem :=
  {| li_course := c; li_teacher := teacher_with_user w c |}.

Definition public_course (w : World) (c : Course.t) : PublicCourse :=
  {| pc_course := c;
     pc_teacher := teacher_with_user w c;
     pc_subject := subject_of w c;
     pc_topics := topics_of w true c |}.

(** The [include] of [getCourseByIdHandler]: topics with
    [contents: false], teacher with the user's names, enrollments, subject,
    quizzes, exams. *)
Definition course_detail (w : World) (c : Course.t) : CourseDetail :=
  {| cd_course := c;
     cd_topics := topics_of w false c;
     cd_teacher := teacher_with_user w c;
     cd_enrollments := related_to c (enrollments w);
     cd_subject := subject_of w c;
     cd_quizzes := related_to c (quizzes w);
     cd_exams := related_to c (exams w) |}.

Definition topic_with_contents (w : World) (t : Topic.t)
  : Topic.t * list Content.t :=
  (t, contents_of w t).

(** [owner.userId === req.userId] *)
Definition same_user (owner : Id) (caller : option Id) : bool :=
  match caller with
  | Some u => String.eqb owner u
  | None => false
  end.

(** ** CourseController.ts *)

Section Controller.
Context `{Storage}.

(** Create a new course *)
Definition createCourseHandler (req : Request) : Handler Response :=
  let title := field req "title" in
  let description := field req "description" in
  let isPublic := field req "isPublic" in
  let subjectId := field req "subjectId" in
  let teacherId := userId req in
  let* _ := appAssert (truthy title) BAD_REQUEST "Missing required fields" in
  let* teacher := teacher_findUnique_userId teacherId in
  match teacher with
  | None => respond NOT_FOUND (JsonError "Teacher not found")
  | Some teacher =>
      match file req with
      | None => respond BAD_REQUEST (JsonError "No image uploaded")
      | Some image =>
          let* imageBuffer := readFileSync (path image) in
          let imageBase64 := base64 imageBuffer in
          let isPublicBoolean := parseIsPublic isPublic in
          try_catch
            (let* course :=
               course_create
                 {| cc_title := title;
                    cc_description := description;
                    cc_isPublic := isPublicBoolean;
                    cc_teacherId := Teacher.teacherId teacher;
                    cc_subjectId := subjectId;
                    cc_image := imageBase64 |} in
             respond CREATED (JsonCourse course))
            (fun _ =>
               respond BAD_REQUEST (JsonError "Failed to create course"))
      end
  end.

(** Get all courses (requires authentication and teacher role) *)
Definition getAllCoursesHandler (req : Request) : Handler Response :=
  let* courses := course_findMany (fun _ => true) list_item in
  respond OK (JsonCourses courses).

(** Get public courses (no authentication required) *)
Definition getPublicCoursesHandler (req : Request) : Handler Response :=
  let* publicCourses := course_findMany Course.isPublic public_course in
  respond OK (JsonPublicCourses publicCourses).

(** Add a topic to a course *)
Definition addTopicToCourseHandler (req : Request) : Handler Response :=
  let courseId := field req "courseId" in
  let title := field req "title" in
  let teacherId := userId req in
  let* _ := appAssert (truthy (js_and courseId title)) BAD_REQUEST
              "Missing required fields" in
  let* course := findUnique courses include_teacher courseId in
  let* course := appAssertFound course NOT_FOUND "Course not found" in
  let* teacher := property (snd course) in
  let* _ := appAssert (same_user (Teacher.userId teacher) teacherId)
              UNAUTHORIZED "Unauthorized to add topic to this course" in
  let* topic := topic_create title courseId in
  respond CREATED (JsonTopic topic).

(** Add content to a topic *)
Definition addContentToTopicHandler (req : Request) : Handler Response :=
  let topicId := field req "topicId" in
  let type := field req "type" in
  let data := field req "data" in
  let teacherId := userId req in
  let* _ := appAssert (truthy (js_and (js_and topicId type) data))
              BAD_REQUEST "Missing required fields" in
  let* topic := findUnique topics include_course topicId in
  let* topic := appAssertFound topic NOT_FOUND "Topic not found" in
  let* course := property (snd topic) in
  let* teacher := property (snd course) in
  let* _ := appAssert (same_user (Teacher.userId teacher) teacherId)
              UNAUTHORIZED "Unauthorized to add content to this topic" in
  let* _ := appAssert (includes validTypes type) BAD_REQUEST
              "Invalid content type" in
  let* content := content_create type data topicId in
  respond CREATED (JsonContent content).

(** Delete a course *)
Definition deleteCourseHandler (req : Request) : Handler Response :=
  let courseId := param req "courseId" in
  let teacherId := userId req in
  let* course := findUnique courses include_teacher courseId in
  let* course := appAssertFound course NOT_FOUND "Course not found" in
  let* teacher := property (snd course) in
  let* _ := appAssert (same_user (Teacher.userId teacher) teacherId)
              UNAUTHORIZED "Unauthorized to delete this course" in
  let* _ := course_delete courseId in
  respond OK (JsonMessage "Course deleted successfully").

(** Update a course *)
Definition updateCourseHandler (req : Request) : Handler Response :=
  let courseId := param req "courseId" in
  let teacherId := userId req in
  let title := field req "title" in
  let description := field req "description" in
  let isPublic := field req "isPublic" in
  let subjectId := field req "subjectId" in
  let* course := findUnique courses include_teacher courseId in
  let* course := appAssertFound course NOT_FOUND "Course not found" in
  let* teacher := property (snd course) in
  let* _ := appAssert (same_user (Teacher.userId teacher) teacherId)
              UNAUTHORIZED "Unauthorized to update this course" in
  let isPublicBoolean := parseIsPublic isPublic in
  let* imageBase64 :=
    match file req with
    | Some f =>
        let* imageBuffer := readFileSync (path f) in
        ret (Some (base64 imageBuffer))
    | None => ret (Course.image (fst course))
    end in
  let* updatedCourse :=
    course_update courseId
      {| cu_title := title;
         cu_description := description;
         cu_isPublic := isPublicBoolean;
         cu_subjectId := subjectId;
         cu_image := imageBase64 |} in
  respond OK (JsonCourse updatedCourse).

(** Update a topic *)
Definition updateTopicHandler (req : Request) : Handler Response :=
  let topicId := param req "topicId" in
  let teacherId := userId req in
  let title := field req "title" in
  let* topic := findUnique topics include_course topicId in
  let* topic := appAssertFound topic NOT_FOUND "Topic not found" in
  let* course := property (snd topic) in
  let* teacher := property (snd course) in
  let* _ := appAssert (same_user (Teacher.userId teacher) teacherId)
              UNAUTHORIZED "Unauthorized to update this topic" in
  let* updatedTopic := topic_update topicId title in
  respond OK (JsonTopic updatedTopic).

(** Update content *)
Definition updateContentHandler (req : Request) : Handler Response :=
  let contentId := param req "contentId" in
  let teacherId := userId req in
  let type := field req "type" in
  let data := field req "data" in
  let* content := findUnique contents include_topic contentId in
  let* content := appAssertFound content NOT_FOUND "Content not found" in
  let* topic := property (snd content) in
  let* course := property (snd topic) in
  let* teacher := property (snd course) in
  let* _ := appAssert (same_user (Teacher.userId teacher) teacherId)
              UNAUTHORIZED "Unauthorized to update this content" in
  let* updatedContent := content_update contentId type data in
  respond OK (JsonContent updatedContent).

(** Delete content *)
Definition deleteContentHandler (req : Request) : Handler Response :=
  let contentId := param req "contentId" in
  let teacherId := userId req in
  let* content := findUnique contents include_topic contentId in
  let* content := appAssertFound content NOT_FOUND "Content not found" in
  let* topic := property (snd content) in
  let* course := property (snd topic) in
  let* teacher := property (snd course) in
  let* _ := appAssert (same_user (Teacher.userId teacher) teacherId)
              UNAUTHORIZED "Unauthorized to delete this content" in
  let* _ := content_delete contentId in
  respond OK (JsonMessage "Content deleted successfully").

(** Get a Course By Id *)
Definition getCourseByIdHandler (req : Request) : Handler Response :=
  let courseId := param req "courseId" in
  let* course := findUnique courses course_detail courseId in
  let* course := appAssertFound course NOT_FOUND "Course not found" in
  respond OK (JsonCourseDetail course).

(** Delete a topic *)
Definition deleteTopicHandler (req : Request) : Handler Response :=
  let topicId := param req "topicId" in
  let teacherId := userId req in
  let* topic := findUnique topics include_course topicId in
  let* topic := appAssertFound topic NOT_FOUND "Topic not found" in
  let* course := property (snd topic) in
  let* teacher := property (snd course) in
  let* _ := appAssert (same_user (Teacher.userId teacher) teacherId)
              UNAUTHORIZED "Unauthorized to delete this topic" in
  let* _ := topic_delete topicId in
  respond OK (JsonMessage "Topic deleted successfully").

(** Get content of a topic *)
Definition getTopicContentHandler (req : Request) : Handler Response :=
  let topicId := param req "topicId" in
  let* topic := findUnique topics topic_with_contents topicId in
  let* topic := appAssertFound topic NOT_FOUND "Topic not found" in
  respond OK (JsonContents (snd topic)).

End Controller.

(** ** CourseRoute.ts *)

Inductive Method : Type := GET | POST | PUT | DELETE.

Definition Method_eqb (a b : Method) : bool :=
  match a, b with
  | GET, GET | POST, POST | PUT, PUT | DELETE, DELETE => true
  | _, _ => false
  end.

(** A path pattern, segment by segment: ["/topic/:topicId"] is
    [[Lit "topic"; Par "topicId"]]. *)
Inductive Segment : Type :=
  | Lit (s : string)
  | Par (name : string).

(** A middleware ends the request with a response of its own, throws, or
    calls [next()] with the request it may have extended. *)
Definition Middleware : Type := Request -> Handler (Response + Request).

(** What the route table relies on and the sources do not hold is taken as
    an interface: the three middlewares the routes name, and the platform's
    [decodeURIComponent], which the router applies to the value of a path
    parameter and which fails on a malformed escape. *)
Class Middlewares : Type := {
  authenticate : Middleware;
  isTeacher : Middleware;
  upload_single : string -> Middleware;
  decodeURIComponent : string -> option string }.

(** A route, with the decoder its layer applies to the parameters. *)
Record Route : Type := {
  method : Method;
  pattern : list Segment;
  stack : list Middleware;
  handler : Request -> Handler Response;
  decode : string -> option string }.

(** A router made with no options compares the letters of a pattern without
    regard to case. *)
Definition lower (c : ascii) : ascii :=
  let n := nat_of_ascii c in
  if (65 <=? n)%nat && (n <=? 90)%nat then ascii_of_nat (n + 32) else c.

Fixpoint lowercase (s : string) : string :=
  match s with
  | EmptyString => EmptyString
  | String c s' => String (lower c) (lowercase s')
  end.

Definition same_literal (literal segment : string) : bool :=
  String.eqb (lowercase literal) (lowercase segment).

(** A path is given by its raw segments, the ones between the slashes under
    the mount point of the router, a trailing slash left out.  A literal of
    the pattern takes a segment that reads the same up to case; a parameter
    takes any segment that is not empty, raw.  The result is the parameters
    with their raw values, in the order of the pattern. *)
Fixpoint match_path (pattern : list Segment) (path : list string)
  : option (list (string * string)) :=
  match pattern, path with
  | [], [] => Some []
  | Lit s :: pattern', x :: path' =>
      if same_literal s x then match_path pattern' path' else None
  | Par name :: pattern', x :: path' =>
      if String.eqb x "" then None
      else (fun raw => (name, x) :: raw) <$> match_path pattern' path'
  | _, _ => None
  end.

(** The values of the parameters are decoded once the whole pattern has
    matched; [None] when one of them cannot be. *)
Definition decode_params (decode : string -> option string)
    (raw : list (string * string)) : option (gmap string string) :=
  list_to_map <$> mapM (fun kv => (fun v => (fst kv, v)) <$> decode (snd kv)) raw.

Definition with_params (ps : gmap string string) (req : Request) : Request :=
  {| headers := headers req; userId := userId req; params := ps;
     body := body req; file := file req |}.

Fixpoint run (stack : list Middleware) (handler : Request -> Handler Response)
    (req : Request) : Handler Response :=
  match stack with
  | [] => handler req
  | m :: stack' =>
      let* step := m req in
      match step with
      | inl response => ret response
      | inr req' => run stack' handler req'
      end
  end.

(** The router goes through the routes in order.  A route whose pattern
    matches the path has its parameters decoded, whatever its method: when
    that fails the request ends with the error and no later route is tried;
    otherwise the route handles the request when the method is its own, and
    the next route is tried when it is not.  [None] when the router has no
    route for the request. *)
Fixpoint dispatch (routes : list Route) (m : Method) (path : list string)
    (req : Request) : option (Handler Response) :=
  match routes with
  | [] => None
  | r :: routes' =>
      match match_path (pattern r) path with
      | Some raw =>
          match decode_params (decode r) raw with
          | Some ps =>
              if Method_eqb (method r) m then
                Some (run (stack r) (handler r) (with_params ps req))
              else dispatch routes' m path req
          | None => Some (throw URIError)
          end
      | None => dispatch routes' m path req
      end
  end.

Section Routes.
Context `{Storage} `{Middlewares}.

Definition route (m : Method) (pattern : list Segment)
    (stack : list Middleware) (handler : Request -> Handler Response)
  : Route :=
  {| method := m; pattern := pattern; stack := stack; handler := handler;
     decode := decodeURIComponent |}.

Definition CourseRoutes : list Route := [
  (* Get all courses and public courses routes *)
  route GET [Lit "all"] [] getAllCoursesHandler;
  route GET [Lit "public"] [] getPublicCoursesHandler;
  (* Get a course by ID *)
  route GET [Par "courseId"] [authenticate] getCourseByIdHandler;
  (* Teacher-only routes *)
  route POST [Lit "create"]
    [authenticate; isTeacher; upload_single "image"] createCourseHandler;
  route POST [Par "courseId"; Lit "addTopic"]
    [authenticate; isTeacher] addTopicToCourseHandler;
  route POST [Par "topicId"; Lit "addContent"]
    [authenticate; isTeacher] addContentToTopicHandler;
  route DELETE [Par "courseId"] [authenticate; isTeacher] deleteCourseHandler;
  route PUT [Par "courseId"]
    [authenticate; isTeacher; upload_single "image"] updateCourseHandler;
  route PUT [Lit "topic"; Par "topicId"]
    [authenticate; isTeacher] updateTopicHandler;
  route PUT [Lit "content"; Par "contentId"]
    [authenticate; isTeacher] updateContentHandler;
  route DELETE [Lit "topic"; Par "topicId"]
    [authenticate; isTeacher] deleteTopicHandler;
  route DELETE [Lit "content"; Par "contentId"]
    [authenticate; isTeacher] deleteContentHandler;
  route GET [Par "topicId"; Lit "content"]
    [authenticate; isTeacher] getTopicContentHandler
].

End Routes.

(** ** A small database to run the handlers on *)

Module Fixture.

(** Two referential actions: one leaves the dependent rows where they are,
    the other removes them with the row they hang from. *)
Definition orphans (w : World) (_ : Write) : Dependents :=
  {| d_topics := topics w; d_contents := contents w;
     d_enrollments := enrollments w; d_quizzes := quizzes w;
     d_exams := exams w |}.

Definition course_of_content (w : World) (c : Content.t) : option Id :=
  Topic.courseId <$> topics w !! Content.topicId c.

Definition cascade (w : World) (c : Write) : Dependents :=
  match c with
  | CourseDelete (JStr id) =>
      {| d_topics := filter (fun kt => Topic.courseId (snd kt) <> id) (topics w);
         d_contents :=
           filter (fun kc => course_of_content w (snd kc) <> Some id)
             (contents w);
         d_enrollments :=
           filter (fun r => Related.courseId r <> id) (enrollments w);
         d_quizzes := filter (fun r => Related.courseId r <> id) (quizzes w);
         d_exams := filter (fun r => Related.courseId r <> id) (exams w) |}
  | TopicDelete (JStr id) =>
      {| d_topics := topics w;
         d_contents :=
           filter (fun kc => Content.topicId (snd kc) <> id) (contents w);
         d_enrollments := enrollments w; d_quizzes := quizzes w;
         d_exams := exams w |}
  | _ => orphans w c
  end.

(** An engine that accepts every write, names the next row ["n1"] and
    leaves the dependent rows of a deleted row. *)
Definition lenient : Storage :=
  {| newId := fun _ => "n1"; admits := fun _ _ => true; onDelete := orphans |}.

(** The same engine with cascading deletes. *)
Definition cascading : Storage :=
  {| newId := fun _ => "n1"; admits := fun _ _ => true; onDelete := cascade |}.

(** An engine that refuses every write. *)
Definition strict : Storage :=
  {| newId := fun _ => "n1"; admits := fun _ _ => false; onDelete := orphans |}.


(** [decodeURIComponent] on a text whose escapes, if any, are of ASCII
    characters; the samples hold no other text. *)
Definition hex_digit (c : ascii) : option nat :=
  let n := nat_of_ascii c in
  if (48 <=? n)%nat && (n <=? 57)%nat then Some (n - 48)
  else if (65 <=? n)%nat && (n <=? 70)%nat then Some (n - 55)
  else if (97 <=? n)%nat && (n <=? 102)%nat then Some (n - 87)
  else None.

Fixpoint decode_ascii (s : string) : option string :=
  match s with
  | EmptyString => Some EmptyString
  | String c rest =>
      if Ascii.eqb c "%" then
        match rest with
        | String a (String b rest') =>
            match hex_digit a, hex_digit b with
            | Some x, Some y =>
                if (x <? 8)%nat
                then String (ascii_of_nat (16 * x + y)) <$> decode_ascii rest'
                else None
            | _, _ => None
            end
        | _ => None
        end
      else String c <$> decode_ascii rest
  end.

(** Middlewares that turn every request away with a 401. *)
Definition refuse : Middleware :=
  fun _ => throw (AppError UNAUTHORIZED "Not authorized").

Definition closed_door : Middlewares :=
  {| authenticate := refuse; isTeacher := refuse;
     upload_single := fun _ => refuse;
     decodeURIComponent := decode_ascii |}.

Definition alice : User.t := User.mk "u1" "Alice" "Martin".
Definition bob : User.t := User.mk "u2" "Bob" "Stone".

Definition algebra : Course.t :=
  {| Course.courseId := "c1"; Course.title := JStr "Algebra I";
     Course.description := JNull; Course.isPublic := true;
     Course.teacherId := "t1"; Course.subjectId := JStr "s1";
     Course.image := Some "TWFu" |}.

Definition drafts : Course.t :=
  {| Course.courseId := "c2"; Course.title := JStr "Drafts";
     Course.description := JNull; Course.isPublic := false;
     Course.teacherId := "t2"; Course.subjectId := JNull;
     Course.image := None |}.

Definition chapter1 : Topic.t :=
  {| Topic.topicId := "p1"; Topic.title := JStr "Chapter 1";
     Topic.courseId := "c1" |}.

Definition link : Content.t :=
  {| Content.contentId := "k1"; Content.type := JStr "LINK";
     Content.data := JStr "http://x"; Content.topicId := "p1" |}.

Definition world : World :=
  {| users := {[ "u1" := alice; "u2" := bob ]};
     teachers := {[ "t1" := Teacher.mk "t1" "u1";
                    "t2" := Teacher.mk "t2" "u2" ]};
     subjects := {[ "s1" := Subject.mk "s1" (JStr "Mathematics") ]};
     courses := {[ "c1" := algebra; "c2" := drafts ]};
     topics := {[ "p1" := chapter1 ]};
     contents := {[ "k1" := link ]};
     enrollments := [Related.mk "e1" "c1" JNull];
     quizzes := [];
     exams := [Related.mk "x1" "c2" JNull];
     journal := [];
     disk := {[ "uploads/cover.png" := [x4d; x61; x6e]%byte ]} |}.

(** Middlewares that let every request through as it is. *)
Definition pass : Middleware := fun req => ret (inr req).

Definition open_door : Middlewares :=
  {| authenticate := pass; isTeacher := pass; upload_single := fun _ => pass;
     decodeURIComponent := decode_ascii |}.

(** A request with nothing in it: no credentials, no caller identity. *)
Definition anonymous : Request :=
  {| headers := ∅; userId := None; params := ∅; body := ∅; file := None |}.

Definition request (caller : option Id) (params : list (string * string))
    (body : list (string * JsValue)) (file : option Upload) : Request :=
  {| headers := ∅; userId := caller; params := list_to_map params;
     body := list_to_map body; file := file |}.

End Fixture.

(** ** Vocabulary of the properties *)

(** The status the client is answered with.  Modelled from the spec:
    [utils/catchErrors] and the error middleware are not among the sources;
    by section 7 of the specification an [AppError] is answered with the
    status it carries.  What status another exception gets is not said. *)
Definition replied (o : Outcome Response) : option nat :=
  match o with
  | Returned r => Some (status r)
  | Threw (AppError s _) => Some s
  | Threw _ => None
  end.

(** The user at the top of the ownership chain of a course, of a topic and of
    a content item. *)
Definition owner_of_course (w : World) (c : Course.t) : option Id :=
  Teacher.userId <$> teachers w !! Course.teacherId c.

Definition owner_of_topic (w : World) (t : Topic.t) : option Id :=
  courses w !! Topic.courseId t ≫= owner_of_course w.

Definition owner_of_content (w : World) (c : Content.t) : option Id :=
  topics w !! Content.topicId c ≫= owner_of_topic w.

(** The same request sent by another caller. *)
Definition as_caller (caller : option Id) (req : Request) : Request :=
  {| headers := headers req; userId := caller; params := params req;
     body := body req; file := file req |}.

(** The upload named by the request, if any, is on the disk. *)
Definition upload_readable (w : World) (req : Request) : Prop :=
  match file req with
  | Some f => is_Some (disk w !! path f)
  | None => True
  end.

(** The image an update stores: the Base64 text of the upload when there is
    one, else the image the course has. *)
Definition update_image (w : World) (req : Request) (c : Course.t)
  : option string :=
  match file req with
  | Some f => base64 <$> disk w !! path f
  | None => Course.image c
  end.

(** The [data] of the write call [updateCourseHandler] makes for a request
    on the course [c]. *)
Definition update_data (w : World) (req : Request) (c : Course.t)
  : CourseUpdateData :=
  {| cu_title := field req "title";
     cu_description := field req "description";
     cu_isPublic := parseIsPublic (field req "isPublic");
     cu_subjectId := field req "subjectId";
     cu_image := update_image w req c |}.

(** The [data] of the write call [createCourseHandler] makes for a request
    of the teacher [t] whose upload holds [bytes]. *)
Definition create_data (req : Request) (t : Teacher.t)
    (bytes : list Byte.byte) : CourseCreateData :=
  {| cc_title := field req "title";
     cc_description := field req "description";
     cc_isPublic := parseIsPublic (field req "isPublic");
     cc_teacherId := Teacher.teacherId t;
     cc_subjectId := field req "subjectId";
     cc_image := base64 bytes |}.

(** The three kinds of entity that have an update and a delete operation,
    the route parameter that names the target, and the owner of a target. *)
Inductive Kind : Type := KCourse | KTopic | KContent.

Definition target_param (k : Kind) : string :=
  match k with
  | KCourse => "courseId"
  | KTopic => "topicId"
  | KContent => "contentId"
  end.

Definition target_exists (w : World) (k : Kind) (id : Id) : bool :=
  match k with
  | KCourse => bool_decide (is_Some (courses w !! id))
  | KTopic => bool_decide (is_Some (topics w !! id))
  | KContent => bool_decide (is_Some (contents w !! id))
  end.

Definition target_owner (w : World) (k : Kind) (id : Id) : option Id :=
  match k with
  | KCourse => courses w !! id ≫= owner_of_course w
  | KTopic => topics w !! id ≫= owner_of_topic w
  | KContent => contents w !! id ≫= owner_of_content w
  end.

Section Operations.
Context `{Storage}.

Definition updateHandler (k : Kind) : Request -> Handler Response :=
  match k with
  | KCourse => updateCourseHandler
  | KTopic => updateTopicHandler
  | KContent => updateContentHandler
  end.

Definition deleteHandler (k : Kind) : Request -> Handler Response :=
  match k with
  | KCourse => deleteCourseHandler
  | KTopic => deleteTopicHandler
  | KContent => deleteContentHandler
  end.

End Operations.

(** The thirteen operations of the controller, and the one kind of write
    call each of them has in its body. *)
Inductive Operation : Type :=
  | CreateCourse | GetAllCourses | GetPublicCourses | AddTopic | AddContent
  | DeleteCourse | UpdateCourse | UpdateTopic | UpdateContent | DeleteContent
  | GetCourseById | DeleteTopic | GetTopicContent.

Definition operations : list Operation :=
  [CreateCourse; GetAllCourses; GetPublicCourses; AddTopic; AddContent;
   DeleteCourse; UpdateCourse; UpdateTopic; UpdateContent; DeleteContent;
   GetCourseById; DeleteTopic; GetTopicContent].

Definition is_read (op : Operation) : bool :=
  match op with
  | GetAllCourses | GetPublicCourses | GetCourseById | GetTopicContent => true
  | _ => false
  end.

Definition is_delete (op : Operation) : bool :=
  match op with
  | DeleteCourse | DeleteTopic | DeleteContent => true
  | _ => false
  end.

Definition own_call (op : Operation) (c : Write) : bool :=
  match op, c with
  | CreateCourse, CourseCreate _
  | AddTopic, TopicCreate _ _
  | AddContent, ContentCreate _ _ _
  | DeleteCourse, CourseDelete _
  | UpdateCourse, CourseUpdate _ _
  | UpdateTopic, TopicUpdate _ _
  | UpdateContent, ContentUpdate _ _ _
  | DeleteContent, ContentDelete _
  | DeleteTopic, TopicDelete _ => true
  | _, _ => false
  end.

Section Handlers.
Context `{Storage}.

Definition handlerOf (op : Operation) : Request -> Handler Response :=
  match op with
  | CreateCourse => createCourseHandler
  | GetAllCourses => getAllCoursesHandler
  | GetPublicCourses => getPublicCoursesHandler
  | AddTopic => addTopicToCourseHandler
  | AddContent => addContentToTopicHandler
  | DeleteCourse => deleteCourseHandler
  | UpdateCourse => updateCourseHandler
  | UpdateTopic => updateTopicHandler
  | UpdateContent => updateContentHandler
  | DeleteContent => deleteContentHandler
  | GetCourseById => getCourseByIdHandler
  | DeleteTopic => deleteTopicHandler
  | GetTopicContent => getTopicContentHandler
  end.

End Handlers.

(** What no operation has a call for: the users, teachers and subjects, the
    enrollments, quizzes and exams, and the files on the disk. *)
Definition same_surroundings (w w' : World) : Prop :=
  users w' = users w /\ teachers w' = teachers w /\ subjects w' = subjects w
  /\ enrollments w' = enrollments w /\ quizzes w' = quizzes w
  /\ exams w' = exams w /\ disk w' = disk w.

(** The delete call on a target, and the message of a successful delete. *)
Definition delete_call (k : Kind) (id : Id) : Write :=
  match k with
  | KCourse => CourseDelete (JStr id)
  | KTopic => TopicDelete (JStr id)
  | KContent => ContentDelete (JStr id)
  end.

(** The row stored under an id in the table of a kind is the same in two
    worlds. *)
Definition same_row (w w' : World) (k : Kind) (id : Id) : Prop :=
  match k with
  | KCourse => courses w' !! id = courses w !! id
  | KTopic => topics w' !! id = topics w !! id
  | KContent => contents w' !! id = contents w !! id
  end.

Definition deleted_message (k : Kind) : string :=
  match k with
  | KCourse => "Course deleted successfully"
  | KTopic => "Topic deleted successfully"
  | KContent => "Content deleted successfully"
  end.

(** The request a route hands on once the path is matched: the parameters
    are those of the match. *)
Definition routed (ps : list (string * string)) (req : Request) : Request :=
  with_params (list_to_map ps) req.

(** ** Basic facts *)

Lemma same_user_spec (owner : Id) (caller : option Id) :
  same_user owner caller = true <-> caller = Some owner.
Proof.
  destruct caller as [u|]; simpl.
  - rewrite String.eqb_eq. split; [intros ->; reflexivity | congruence].
  - split; discriminate.
Qed.

Lemma same_user_other (owner : Id) (caller : option Id) :
  caller <> Some owner -> same_user owner caller = false.
Proof.
  intros Hne. destruct (same_user owner caller) eqn:E; [|reflexivity].
  apply same_user_spec in E. contradiction.
Qed.

Lemma same_user_self (owner : Id) : same_user owner (Some owner) = true.
Proof. apply same_user_spec. reflexivity. Qed.

Lemma param_bound (req : Request) (name : string) (id : Id) :
  params req !! name = Some id -> param req name = JStr id.
Proof. unfold param. intros ->. reflexivity. Qed.

Lemma param_as_caller (caller : option Id) (req : Request) (name : string) :
  param (as_caller caller req) name = param req name.
Proof. reflexivity. Qed.

Lemma owner_of_course_chain (w : World) (c : Course.t) (o : Id) :
  owner_of_course w c = Some o ->
  exists t, teachers w !! Course.teacherId c = Some t /\ Teacher.userId t = o.
Proof.
  unfold owner_of_course.
  destruct (teachers w !! Course.teacherId c) as [t|]; simpl; [|discriminate].
  intros [= <-]. eauto.
Qed.

Lemma owner_of_topic_chain (w : World) (t : Topic.t) (o : Id) :
  owner_of_topic w t = Some o ->
  exists c, courses w !! Topic.courseId t = Some c /\ owner_of_course w c = Some o.
Proof.
  unfold owner_of_topic.
  destruct (courses w !! Topic.courseId t) as [c|]; simpl; [|discriminate].
  eauto.
Qed.

Lemma owner_of_content_chain (w : World) (c : Content.t) (o : Id) :
  owner_of_content w c = Some o ->
  exists t, topics w !! Content.topicId c = Some t /\ owner_of_topic w t = Some o.
Proof.
  unfold owner_of_content.
  destruct (topics w !! Content.topicId c) as [t|]; simpl; [|discriminate].
  eauto.
Qed.

(** Unfolds a handler down to the lookups it makes. *)
Ltac run_handler :=
  unfold bind, findUnique, appAssertFound, appAssert, property, respond, ret,
    throw; simpl.

(** Resolves an ownership chain given as a hypothesis into the lookups the
    handler makes. *)
Ltac walk_chain :=
  repeat match goal with
  | H : owner_of_content _ _ = Some _ |- _ =>
      apply owner_of_content_chain in H; destruct H as (? & ? & H)
  | H : owner_of_topic _ _ = Some _ |- _ =>
      apply owner_of_topic_chain in H; destruct H as (? & ? & H)
  | H : owner_of_course _ _ = Some _ |- _ =>
      apply owner_of_course_chain in H; destruct H as (? & ? & H)
  end.

(** ** Existence is checked first *)

Section NotFound.
Context `{Storage}.
Variables (req : Request) (w : World) (id : Id).

Lemma deleteCourse_not_found :
  params req !! "courseId" = Some id -> courses w !! id = None ->
  deleteCourseHandler req w
  = (Threw (AppError NOT_FOUND "Course not found"), w).
Proof.
  intros Hp Hc. unfold deleteCourseHandler. rewrite (param_bound _ _ _ Hp).
  run_handler. rewrite Hc. reflexivity.
Qed.

Lemma updateCourse_not_found :
  params req !! "courseId" = Some id -> courses w !! id = None ->
  updateCourseHandler req w
  = (Threw (AppError NOT_FOUND "Course not found"), w).
Proof.
  intros Hp Hc. unfold updateCourseHandler. rewrite (param_bound _ _ _ Hp).
  run_handler. rewrite Hc. reflexivity.
Qed.

Lemma updateTopic_not_found :
  params req !! "topicId" = Some id -> topics w !! id = None ->
  updateTopicHandler req w
  = (Threw (AppError NOT_FOUND "Topic not found"), w).
Proof.
  intros Hp Hc. unfold updateTopicHandler. rewrite (param_bound _ _ _ Hp).
  run_handler. rewrite Hc. reflexivity.
Qed.

Lemma deleteTopic_not_found :
  params req !! "topicId" = Some id -> topics w !! id = None ->
  deleteTopicHandler req w
  = (Threw (AppError NOT_FOUND "Topic not found"), w).
Proof.
  intros Hp Hc. unfold deleteTopicHandler. rewrite (param_bound _ _ _ Hp).
  run_handler. rewrite Hc. reflexivity.
Qed.

Lemma updateContent_not_found :
  params req !! "contentId" = Some id -> contents w !! id = None ->
  updateContentHandler req w
  = (Threw (AppError NOT_FOUND "Content not found"), w).
Proof.
  intros Hp Hc. unfold updateContentHandler. rewrite (param_bound _ _ _ Hp).
  run_handler. rewrite Hc. reflexivity.
Qed.

Lemma deleteContent_not_found :
  params req !! "contentId" = Some id -> contents w !! id = None ->
  deleteContentHandler req w
  = (Threw (AppError NOT_FOUND "Content not found"), w).
Proof.
  intros Hp Hc. unfold deleteContentHandler. rewrite (param_bound _ _ _ Hp).
  run_handler. rewrite Hc. reflexivity.
Qed.

End NotFound.

(** ** A caller who is not the owner is turned away *)

Section Unauthorized.
Context `{Storage}.
Variables (req : Request) (w : World) (id owner : Id).
Hypothesis stranger : userId req <> Some owner.

Lemma deleteCourse_unauthorized (c : Course.t) :
  params req !! "courseId" = Some id -> courses w !! id = Some c ->
  owner_of_course w c = Some owner ->
  deleteCourseHandler req w
  = (Threw (AppError UNAUTHORIZED "Unauthorized to delete this course"), w).
Proof.
  intros Hp Hc Ho. walk_chain. subst owner.
  unfold deleteCourseHandler. rewrite (param_bound _ _ _ Hp).
  run_handler. rewrite Hc. simpl.
  unfold include_teacher. simpl.
  match goal with E : teachers _ !! _ = Some _ |- _ => rewrite E end.
  simpl. rewrite (same_user_other _ _ stranger). reflexivity.
Qed.

Lemma updateCourse_unauthorized (c : Course.t) :
  params req !! "courseId" = Some id -> courses w !! id = Some c ->
  owner_of_course w c = Some owner ->
  updateCourseHandler req w
  = (Threw (AppError UNAUTHORIZED "Unauthorized to update this course"), w).
Proof.
  intros Hp Hc Ho. walk_chain. subst owner.
  unfold updateCourseHandler. rewrite (param_bound _ _ _ Hp).
  run_handler. rewrite Hc. simpl.
  unfold include_teacher. simpl.
  match goal with E : teachers _ !! _ = Some _ |- _ => rewrite E end.
  simpl. rewrite (same_user_other _ _ stranger). reflexivity.
Qed.

Lemma updateTopic_unauthorized (t : Topic.t) :
  params req !! "topicId" = Some id -> topics w !! id = Some t ->
  owner_of_topic w t = Some owner ->
  updateTopicHandler req w
  = (Threw (AppError UNAUTHORIZED "Unauthorized to update this topic"), w).
Proof.
  intros Hp Ht Ho. walk_chain. subst owner.
  unfold updateTopicHandler. rewrite (param_bound _ _ _ Hp).
  run_handler. rewrite Ht. simpl.
  unfold include_course, include_teacher. simpl.
  match goal with E : courses _ !! _ = Some _ |- _ => rewrite E end. simpl.
  match goal with E : teachers _ !! _ = Some _ |- _ => rewrite E end.
  simpl. rewrite (same_user_other _ _ stranger). reflexivity.
Qed.

Lemma deleteTopic_unauthorized (t : Topic.t) :
  params req !! "topicId" = Some id -> topics w !! id = Some t ->
  owner_of_topic w t = Some owner ->
  deleteTopicHandler req w
  = (Threw (AppError UNAUTHORIZED "Unauthorized to delete this topic"), w).
Proof.
  intros Hp Ht Ho. walk_chain. subst owner.
  unfold deleteTopicHandler. rewrite (param_bound _ _ _ Hp).
  run_handler. rewrite Ht. simpl.
  unfold include_course, include_teacher. simpl.
  match goal with E : courses _ !! _ = Some _ |- _ => rewrite E end. simpl.
  match goal with E : teachers _ !! _ = Some _ |- _ => rewrite E end.
  simpl. rewrite (same_user_other _ _ stranger). reflexivity.
Qed.

Lemma updateContent_unauthorized (c : Content.t) :
  params req !! "contentId" = Some id -> contents w !! id = Some c ->
  owner_of_content w c = Some owner ->
  updateContentHandler req w
  = (Threw (AppError UNAUTHORIZED "Unauthorized to update this content"), w).
Proof.
  intros Hp Hk Ho. walk_chain. subst owner.
  unfold updateContentHandler. rewrite (param_bound _ _ _ Hp).
  run_handler. rewrite Hk. simpl.
  unfold include_topic, include_course, include_teacher. simpl.
  match goal with E : topics _ !! _ = Some _ |- _ => rewrite E end. simpl.
  match goal with E : courses _ !! _ = Some _ |- _ => rewrite E end. simpl.
  match goal with E : teachers _ !! _ = Some _ |- _ => rewrite E end.
  simpl. rewrite (same_user_other _ _ stranger). reflexivity.
Qed.

Lemma deleteContent_unauthorized (c : Content.t) :
  params req !! "contentId" = Some id -> contents w !! id = Some c ->
  owner_of_content w c = Some owner ->
  deleteContentHandler req w
  = (Threw (AppError UNAUTHORIZED "Unauthorized to delete this content"), w).
Proof.
  intros Hp Hk Ho. walk_chain. subst owner.
  unfold deleteContentHandler. rewrite (param_bound _ _ _ Hp).
  run_handler. rewrite Hk. simpl.
  unfold include_topic, include_course, include_teacher. simpl.
  match goal with E : topics _ !! _ = Some _ |- _ => rewrite E end. simpl.
  match goal with E : courses _ !! _ = Some _ |- _ => rewrite E end. simpl.
  match goal with E : teachers _ !! _ = Some _ |- _ => rewrite E end.
  simpl. rewrite (same_user_other _ _ stranger). reflexivity.
Qed.

End Unauthorized.

(** ** What a write call does to the course table *)

Section CourseWrites.
Context `{Storage}.

Lemma write_journal {A} (c : Write) (effect : World -> option (A * World))
    (w : World) :
  (forall w1 a w2, effect w1 = Some (a, w2) -> journal w2 = journal w1) ->
  journal (snd (write c effect w)) = c :: journal w.
Proof.
  intros Heff. unfold write.
  destruct (admits w c); [|reflexivity].
  destruct (effect (issue c w)) as [[a w2]|] eqn:E; [|reflexivity].
  simpl. rewrite (Heff _ _ _ E). reflexivity.
Qed.

(** A row of the course table after [course_create] was there before, or
    is the row made from the data of the call. *)
Lemma course_create_rows (d : CourseCreateData) (w : World) (id : Id)
    (c : Course.t) :
  courses (snd (course_create d w)) !! id = Some c ->
  courses w !! id = Some c \/ c = new_course id d.
Proof.
  unfold course_create, write.
  destruct (admits w (CourseCreate d)); simpl; [|auto].
  destruct (courses w !! newId w) eqn:E; simpl; [auto|].
  rewrite lookup_insert. case_decide; [|auto].
  subst id. intros [= <-]. auto.
Qed.

(** A row of the course table after [course_update] was there before, or
    is the old row with the data of the call written over it. *)
Lemma course_update_rows (key : JsValue) (d : CourseUpdateData) (w : World)
    (id : Id) (c : Course.t) :
  courses (snd (course_update key d w)) !! id = Some c ->
  courses w !! id = Some c \/ exists c0, c = updated_course c0 d.
Proof.
  unfold course_update, write.
  destruct (admits w (CourseUpdate key d)); simpl; [|auto].
  destruct (where_key key) as [k|]; simpl; [|auto].
  destruct (courses w !! k) as [c0|] eqn:E; simpl; [|auto].
  rewrite lookup_insert. case_decide; [|auto].
  intros [= <-]. eauto.
Qed.

(** An admitted update of an existing course answers with the new row and
    stores it. *)
Lemma course_update_admitted (id : Id) (d : CourseUpdateData) (w : World)
    (c : Course.t) :
  courses w !! id = Some c ->
  admits w (CourseUpdate (JStr id) d) = true ->
  course_update (JStr id) d w
  = (Returned (updated_course c d),
     with_courses (<[id := updated_course c d]> (courses w))
       (issue (CourseUpdate (JStr id) d) w)).
Proof.
  intros Hc Ha. unfold course_update, write. rewrite Ha. simpl.
  rewrite Hc. reflexivity.
Qed.

Lemma course_create_admitted (d : CourseCreateData) (w : World) :
  courses w !! newId w = None ->
  admits w (CourseCreate d) = true ->
  course_create d w
  = (Returned (new_course (newId w) d),
     with_courses (<[newId w := new_course (newId w) d]> (courses w))
       (issue (CourseCreate d) w)).
Proof.
  intros Hc Ha. unfold course_create, write. rewrite Ha. simpl.
  rewrite Hc. reflexivity.
Qed.


End CourseWrites.

(** ** The write an owner's request reaches *)

Section OwnerRuns.
Context `{Storage}.
Variables (req : Request) (w : World) (id owner : Id).
Hypothesis caller_owns : userId req = Some owner.

(** An owner's update of a course comes down to one [course_update] call
    with the data of the request. *)
Lemma updateCourse_owner (c : Course.t) :
  params req !! "courseId" = Some id -> courses w !! id = Some c ->
  owner_of_course w c = Some owner ->
  upload_readable w req ->
  updateCourseHandler req w
  = (let* updatedCourse := course_update (JStr id) (update_data w req c) in
     respond OK (JsonCourse updatedCourse)) w.
Proof.
  intros Hp Hc Ho Hup. walk_chain. subst owner.
  unfold updateCourseHandler. rewrite (param_bound _ _ _ Hp).
  unfold update_data, update_image. unfold upload_readable in Hup.
  run_handler. rewrite Hc. simpl.
  unfold include_teacher. simpl.
  match goal with E : teachers _ !! _ = Some _ |- _ => rewrite E end.
  simpl. rewrite caller_owns, same_user_self. simpl.
  destruct (file req) as [f|]; simpl; [|reflexivity].
  unfold readFileSync. destruct Hup as [bytes Hb]. rewrite Hb. reflexivity.
Qed.


End OwnerRuns.

(** ** Every path of the two course writers *)

Section CoursePaths.
Context `{Storage}.

(** [createCourseHandler] leaves the world as it is, or makes one
    [course_create] call whose visibility flag is the parsed one. *)
Lemma createCourse_paths (req : Request) (w : World) :
  snd (createCourseHandler req w) = w
  \/ exists d,
       cc_isPublic d = parseIsPublic (field req "isPublic")
       /\ createCourseHandler req w
          = try_catch
              (let* course := course_create d in
               respond CREATED (JsonCourse course))
              (fun _ =>
                 respond BAD_REQUEST (JsonError "Failed to create course"))
              w.
Proof.
  unfold createCourseHandler. run_handler.
  destruct (truthy (field req "title")); simpl; [|auto].
  unfold teacher_findUnique_userId.
  destruct (userId req) as [uid|]; simpl; [|auto].
  destruct (teacher_of_user w uid) as [t|]; simpl; [|auto].
  destruct (file req) as [f|]; simpl; [|auto].
  unfold readFileSync.
  destruct (disk w !! path f) as [bytes|]; simpl; [|auto].
  right. exists (create_data req t bytes). split; reflexivity.
Qed.

(** [updateCourseHandler] leaves the world as it is, or makes one
    [course_update] call whose visibility flag is the parsed one. *)
Lemma updateCourse_paths (req : Request) (w : World) :
  snd (updateCourseHandler req w) = w
  \/ exists key d,
       cu_isPublic d = parseIsPublic (field req "isPublic")
       /\ updateCourseHandler req w
          = (let* updatedCourse := course_update key d in
             respond OK (JsonCourse updatedCourse)) w.
Proof.
  unfold updateCourseHandler. run_handler.
  destruct (where_key (param req "courseId")) as [k|]; simpl; [|auto].
  destruct (courses w !! k) as [c|]; simpl; [|auto].
  destruct (teachers w !! Course.teacherId c) as [t|]; simpl; [|auto].
  destruct (same_user (Teacher.userId t) (userId req)); simpl; [|auto].
  destruct (file req) as [f|]; simpl.
  - unfold readFileSync.
    destruct (disk w !! path f) as [bytes|]; simpl; [|auto].
    right. eexists _, {| cu_isPublic := _ |}. split; reflexivity.
  - right. eexists _, {| cu_isPublic := _ |}. split; reflexivity.
Qed.

Lemma create_then_respond_world (d : CourseCreateData) (w : World) :
  courses
    (snd (try_catch
            (let* course := course_create d in
             respond CREATED (JsonCourse course))
            (fun _ =>
               respond BAD_REQUEST (JsonError "Failed to create course"))
            w))
  = courses (snd (course_create d w)).
Proof.
  unfold try_catch, bind, respond, ret.
  destruct (course_create d w) as [[c|e] w']; reflexivity.
Qed.

(** Answering after a call leaves the world as the call left it. *)
Lemma respond_after_world {A} (m : Handler A) (s : nat) (f : A -> Json)
    (w : World) :
  snd ((let* a := m in respond s (f a)) w) = snd (m w).
Proof.
  unfold bind, respond, ret. destruct (m w) as [[a|e] w']; reflexivity.
Qed.

End CoursePaths.

(** ** The read queries *)

Lemma rows_spec {R} (m : gmap string R) (r : R) :
  r ∈ (snd <$> map_to_list m) <-> exists k, m !! k = Some r.
Proof.
  rewrite list_elem_of_fmap. split.
  - intros ([k r'] & -> & Hin). apply elem_of_map_to_list in Hin. eauto.
  - intros (k & Hk). exists (k, r). split; [reflexivity|].
    apply elem_of_map_to_list. exact Hk.
Qed.

Lemma filter_all {A} (l : list A) : filter (fun _ => true = true) l = l.
Proof.
  induction l as [|x l IH]; [reflexivity|].
  rewrite filter_cons. case_decide; [|congruence]. rewrite IH. reflexivity.
Qed.

Lemma related_to_spec (c : Course.t) (rows : list Related.t) (r : Related.t) :
  r ∈ related_to c rows
  <-> r ∈ rows /\ Related.courseId r = Course.courseId c.
Proof. unfold related_to. rewrite list_elem_of_filter. tauto. Qed.

Lemma topics_of_spec (w : World) (flag : bool) (c : Course.t) (tv : TopicView) :
  tv ∈ topics_of w flag c
  <-> exists k t,
        topics w !! k = Some t
        /\ Topic.courseId t = Course.courseId c
        /\ tv = {| tv_topic := t;
                   tv_contents :=
                     if flag then Some (contents_of w t) else None |}.
Proof.
  unfold topics_of. rewrite list_elem_of_fmap. split.
  - intros (t & -> & Hin). apply list_elem_of_filter in Hin as [Hc Hin].
    apply rows_spec in Hin as [k Hk]. eauto.
  - intros (k & t & Hk & Hc & ->). exists t. split; [reflexivity|].
    apply list_elem_of_filter. split; [exact Hc|].
    apply rows_spec. eauto.
Qed.

(** C1 (what the code does instead): the route table registers
    [GET /all] with no middleware, so whatever the authentication and
    teacher checks are, every request, one with no caller identity and no
    credentials included, is answered 200 with the list of all courses and
    their teachers' names. *)
Theorem all_courses_route_is_unguarded `{Storage} `{Middlewares}
    (req : Request) (w : World) :
  exists h,
    dispatch CourseRoutes GET ["all"] req = Some h
    /\ stack <$> head CourseRoutes = Some []
    /\ h w
       = (Returned
            {| status := OK;
               json := JsonCourses
                         (list_item w <$> (snd <$> map_to_list (courses w))) |},
          w).
Proof.
  eexists. split; [reflexivity|]. split; [reflexivity|].
  simpl. unfold getAllCoursesHandler, course_findMany. run_handler.
  rewrite filter_all. reflexivity.
Qed.

(** C1, run: with middlewares that turn every request away, a request with
    no identity is still answered with both stored courses on [GET /all],
    while [GET /c1], a guarded route, is refused. *)
Example anonymous_lists_all_courses :
  (fun h => fst (h Fixture.world))
    <$> dispatch (@CourseRoutes Fixture.lenient Fixture.closed_door)
          GET ["all"] Fixture.anonymous
  = Some (Returned
            {| status := OK;
               json := JsonCourses
                         [list_item Fixture.world Fixture.algebra;
                          list_item Fixture.world Fixture.drafts] |}).
Proof. vm_compute. reflexivity. Qed.

Example anonymous_is_refused_a_course :
  (fun h => fst (h Fixture.world))
    <$> dispatch (@CourseRoutes Fixture.lenient Fixture.closed_door)
          GET ["c1"] Fixture.anonymous
  = Some (Threw (AppError UNAUTHORIZED "Not authorized")).
Proof. reflexivity. Qed.

(** C9: whatever courses are stored, the public list is answered 200 and
    holds no course whose visibility flag is false; and it holds every
    stored course whose flag is true. *)
Theorem public_list_holds_public_courses_only (req : Request) (w : World) :
  exists l,
    getPublicCoursesHandler req w
    = (Returned {| status := OK; json := JsonPublicCourses l |}, w)
    /\ Forall (fun pc => Course.isPublic (pc_course pc) <> false) l
    /\ (forall k c, courses w !! k = Some c -> Course.isPublic c = true ->
          public_course w c ∈ l).
Proof.
  eexists. split; [reflexivity|]. split.
  - apply Forall_forall. intros pc Hin.
    apply list_elem_of_fmap in Hin as (c & -> & Hin).
    apply list_elem_of_filter in Hin as [Hpub _]. simpl.
    rewrite Hpub. discriminate.
  - intros k c Hk Hpub. apply list_elem_of_fmap. exists c.
    split; [reflexivity|]. apply list_elem_of_filter. split; [exact Hpub|].
    apply rows_spec. eauto.
Qed.

(** C9, run: a private and a public course are stored; the list has the
    public one alone. *)
Lemma public_list_holds_public_courses_only_witness :
  exists l,
    getPublicCoursesHandler Fixture.anonymous Fixture.world
    = (Returned {| status := OK; json := JsonPublicCourses l |}, Fixture.world)
    /\ Forall (fun pc => Course.isPublic (pc_course pc) <> false) l
    /\ public_course Fixture.world Fixture.algebra ∈ l.
Proof.
  destruct (public_list_holds_public_courses_only
              Fixture.anonymous Fixture.world) as (l & Hrun & Hpub & Hall).
  exists l. split; [exact Hrun|]. split; [exact Hpub|].
  apply (Hall "c1"); reflexivity.
Defined.

(** C2 as stated fails: the course "c1" exists and its topic "p1" has one
    content item, yet the detail answered for "c1" carries the topic with no
    contents at all. *)
Lemma detail_topics_carry_no_contents :
  ~ (forall (req : Request) (w : World) (id : Id) (c : Course.t),
       params req !! "courseId" = Some id ->
       courses w !! id = Some c ->
       exists d,
         getCourseByIdHandler req w
         = (Returned {| status := OK; json := JsonCourseDetail d |}, w)
         /\ forall tv, tv ∈ cd_topics d ->
              tv_contents tv = Some (contents_of w (tv_topic tv))).
Proof.
  intros Hclaim.
  destruct (Hclaim (Fixture.request None [("courseId", "c1")] [] None)
              Fixture.world "c1" Fixture.algebra eq_refl eq_refl)
    as (d & Hrun & Hjoin).
  vm_compute in Hrun. injection Hrun as <-.
  specialize (Hjoin {| tv_topic := Fixture.chapter1; tv_contents := None |}).
  simpl in Hjoin. discriminate Hjoin. left.
Qed.

(** C2, amended: for every existing course id, get-course-by-id answers 200
    with the course joined with its topics (each without its contents), its
    teacher and the teacher's names, its enrollments, its subject, its
    quizzes and its exams; the store is left as it is. *)
Theorem course_detail_projection (req : Request) (w : World) (id : Id)
    (c : Course.t) :
  params req !! "courseId" = Some id ->
  courses w !! id = Some c ->
  exists d,
    getCourseByIdHandler req w
    = (Returned {| status := OK; json := JsonCourseDetail d |}, w)
    /\ cd_course d = c
    /\ (forall tv, tv ∈ cd_topics d
          <-> exists k t, topics w !! k = Some t
                /\ Topic.courseId t = Course.courseId c
                /\ tv = {| tv_topic := t; tv_contents := None |})
    /\ cd_teacher d
       = ((fun t => {| tu_teacher := t;
                       tu_user := user_names <$> users w !! Teacher.userId t |})
            <$> teachers w !! Course.teacherId c)
    /\ (forall r, r ∈ cd_enrollments d
          <-> r ∈ enrollments w /\ Related.courseId r = Course.courseId c)
    /\ cd_subject d
       = (where_key (Course.subjectId c) ≫= fun s => subjects w !! s)
    /\ (forall r, r ∈ cd_quizzes d
          <-> r ∈ quizzes w /\ Related.courseId r = Course.courseId c)
    /\ (forall r, r ∈ cd_exams d
          <-> r ∈ exams w /\ Related.courseId r = Course.courseId c).
Proof.
  intros Hp Hc. exists (course_detail w c). split.
  - unfold getCourseByIdHandler. rewrite (param_bound _ _ _ Hp).
    run_handler. rewrite Hc. reflexivity.
  - simpl. split; [reflexivity|].
    split; [intros tv; apply (topics_of_spec w false c)|].
    split; [reflexivity|].
    split; [intros r; apply related_to_spec|].
    split; [reflexivity|].
    split; intros r; apply related_to_spec.
Qed.

(** C2, run: the detail of "c1" is answered with its one topic, bare. *)
Lemma course_detail_projection_witness :
  exists d,
    getCourseByIdHandler
      (Fixture.request None [("courseId", "c1")] [] None) Fixture.world
    = (Returned {| status := OK; json := JsonCourseDetail d |}, Fixture.world)
    /\ cd_course d = Fixture.algebra
    /\ {| tv_topic := Fixture.chapter1; tv_contents := None |} ∈ cd_topics d.
Proof.
  destruct (course_detail_projection
              (Fixture.request None [("courseId", "c1")] [] None)
              Fixture.world "c1" Fixture.algebra eq_refl eq_refl)
    as (d & Hrun & Hcourse & Htopics & _).
  exists d. split; [exact Hrun|]. split; [exact Hcourse|].
  apply Htopics. exists "p1", Fixture.chapter1.
  split; [reflexivity|]. split; reflexivity.
Defined.

(** ** Updates and deletes *)

(** C3: when the course exists, the caller owns it and the body has no
    [isPublic] field, the update handler asks the store to write
    [isPublic = false]; once the store admits the write, the answer is 200
    and the stored course is private, whatever its flag was before. *)
Theorem update_without_isPublic_makes_private `{Storage} (req : Request)
    (w : World) (id owner : Id) (c : Course.t) :
  params req !! "courseId" = Some id ->
  courses w !! id = Some c ->
  owner_of_course w c = Some owner ->
  userId req = Some owner ->
  body req !! "isPublic" = None ->
  upload_readable w req ->
  let d := update_data w req c in
  cu_isPublic d = false
  /\ journal (snd (updateCourseHandler req w))
     = CourseUpdate (JStr id) d :: journal w
  /\ (admits w (CourseUpdate (JStr id) d) = true ->
      exists c' w',
        updateCourseHandler req w
        = (Returned {| status := OK; json := JsonCourse c' |}, w')
        /\ courses w' !! id = Some c'
        /\ Course.isPublic c' = false).
Proof.
  intros Hp Hc Ho Hu Hb Hup d.
  assert (Hd : cu_isPublic d = false).
  { unfold d, update_data, field. simpl. rewrite Hb. reflexivity. }
  rewrite (updateCourse_owner req w id owner Hu c Hp Hc Ho Hup).
  fold d. split; [exact Hd|]. split.
  - rewrite respond_after_world. unfold course_update.
    apply write_journal. intros w1 a w2. cbn.
    destruct (courses w1 !! id); cbn; [|discriminate].
    intros [= _ <-]. reflexivity.
  - intros Ha. unfold bind.
    rewrite (course_update_admitted id d w c Hc Ha). simpl.
    eexists _, _. split; [reflexivity|]. split.
    + simpl. apply lookup_insert_eq.
    + exact Hd.
Qed.

(** C3, run: "c1" is public; its owner sends an update with a title only;
    the stored course comes out private. *)
Lemma update_without_isPublic_makes_private_witness :
  Course.isPublic Fixture.algebra = true
  /\ exists c' w',
       @updateCourseHandler Fixture.lenient
         (Fixture.request (Some "u1") [("courseId", "c1")]
            [("title", JStr "Algebra II")] None)
         Fixture.world
       = (Returned {| status := OK; json := JsonCourse c' |}, w')
       /\ courses w' !! "c1" = Some c'
       /\ Course.isPublic c' = false.
Proof.
  split; [reflexivity|].
  apply (@update_without_isPublic_makes_private Fixture.lenient
           (Fixture.request (Some "u1") [("courseId", "c1")]
              [("title", JStr "Algebra II")] None)
           Fixture.world "c1" "u1" Fixture.algebra);
    solve [reflexivity | exact I].
Defined.

(** C4: an update or a delete of an existing course, topic or content item
    whose owning teacher's user is not the caller is answered 401, and the
    world is left as it is: no row changes and no write call is issued. *)
Theorem stranger_is_denied_and_nothing_is_written `{Storage} (k : Kind)
    (req : Request) (w : World) (id owner : Id) :
  params req !! target_param k = Some id ->
  target_owner w k id = Some owner ->
  userId req <> Some owner ->
  (replied (fst (updateHandler k req w)) = Some UNAUTHORIZED
   /\ snd (updateHandler k req w) = w)
  /\ (replied (fst (deleteHandler k req w)) = Some UNAUTHORIZED
      /\ snd (deleteHandler k req w) = w).
Proof.
  intros Hp Ho Hne. destruct k; simpl in *.
  - destruct (courses w !! id) as [c|] eqn:Hc; simpl in Ho; [|discriminate].
    rewrite (updateCourse_unauthorized req w id owner Hne c Hp Hc Ho).
    rewrite (deleteCourse_unauthorized req w id owner Hne c Hp Hc Ho).
    repeat split.
  - destruct (topics w !! id) as [t|] eqn:Ht; simpl in Ho; [|discriminate].
    rewrite (updateTopic_unauthorized req w id owner Hne t Hp Ht Ho).
    rewrite (deleteTopic_unauthorized req w id owner Hne t Hp Ht Ho).
    repeat split.
  - destruct (contents w !! id) as [c|] eqn:Hc; simpl in Ho; [|discriminate].
    rewrite (updateContent_unauthorized req w id owner Hne c Hp Hc Ho).
    rewrite (deleteContent_unauthorized req w id owner Hne c Hp Hc Ho).
    repeat split.
Qed.

(** C4, run: the content item "k1" sits under a course of user "u1"; user
    "u2" tries to update and to delete it. *)
Lemma stranger_is_denied_and_nothing_is_written_witness :
  let req := Fixture.request (Some "u2") [("contentId", "k1")]
               [("type", JStr "TEXT"); ("data", JStr "mine now")] None in
  (replied (fst (@updateContentHandler Fixture.lenient req Fixture.world))
   = Some UNAUTHORIZED
   /\ snd (@updateContentHandler Fixture.lenient req Fixture.world)
      = Fixture.world)
  /\ (replied (fst (@deleteContentHandler Fixture.lenient req Fixture.world))
      = Some UNAUTHORIZED
      /\ snd (@deleteContentHandler Fixture.lenient req Fixture.world)
         = Fixture.world).
Proof.
  intros req.
  apply (@stranger_is_denied_and_nothing_is_written Fixture.lenient KContent
           req Fixture.world "k1" "u1");
    [reflexivity | reflexivity | discriminate].
Defined.

(** C5: an update or a delete whose target id is not in the store is
    answered 404 and leaves the world as it is; the lookup comes before any
    comparison with the caller, so the answer is the same for every caller
    identity, the absent one included. *)
Theorem missing_target_is_not_found_for_every_caller `{Storage} (k : Kind)
    (req : Request) (w : World) (id : Id) (caller : option Id) :
  params req !! target_param k = Some id ->
  target_exists w k id = false ->
  (replied (fst (updateHandler k (as_caller caller req) w)) = Some NOT_FOUND
   /\ snd (updateHandler k (as_caller caller req) w) = w)
  /\ (replied (fst (deleteHandler k (as_caller caller req) w)) = Some NOT_FOUND
      /\ snd (deleteHandler k (as_caller caller req) w) = w)
  /\ updateHandler k (as_caller caller req) w = updateHandler k req w
  /\ deleteHandler k (as_caller caller req) w = deleteHandler k req w.
Proof.
  intros Hp Hex.
  destruct k; simpl in Hp, Hex; apply bool_decide_eq_false in Hex;
    rewrite <- eq_None_not_Some in Hex; unfold updateHandler, deleteHandler.
  - rewrite (updateCourse_not_found (as_caller caller req) w id Hp Hex),
      (deleteCourse_not_found (as_caller caller req) w id Hp Hex),
      (updateCourse_not_found req w id Hp Hex),
      (deleteCourse_not_found req w id Hp Hex). repeat split.
  - rewrite (updateTopic_not_found (as_caller caller req) w id Hp Hex),
      (deleteTopic_not_found (as_caller caller req) w id Hp Hex),
      (updateTopic_not_found req w id Hp Hex),
      (deleteTopic_not_found req w id Hp Hex). repeat split.
  - rewrite (updateContent_not_found (as_caller caller req) w id Hp Hex),
      (deleteContent_not_found (as_caller caller req) w id Hp Hex),
      (updateContent_not_found req w id Hp Hex),
      (deleteContent_not_found req w id Hp Hex). repeat split.
Qed.

(** C5, run: no topic "p9" is stored; the owner of every stored topic, a
    stranger and a caller with no identity are all answered 404. *)
Lemma missing_target_is_not_found_for_every_caller_witness :
  let req := Fixture.request None [("topicId", "p9")]
               [("title", JStr "Chapter 9")] None in
  Forall
    (fun caller =>
       replied (fst (@updateTopicHandler Fixture.lenient
                       (as_caller caller req) Fixture.world))
       = Some NOT_FOUND
       /\ replied (fst (@deleteTopicHandler Fixture.lenient
                          (as_caller caller req) Fixture.world))
          = Some NOT_FOUND)
    [Some "u1"; Some "u2"; None].
Proof.
  intros req. apply Forall_forall. intros caller _.
  destruct (@missing_target_is_not_found_for_every_caller Fixture.lenient
              KTopic req Fixture.world "p9" caller eq_refl eq_refl)
    as ((Hupd & _) & (Hdel & _) & _).
  split; [exact Hupd | exact Hdel].
Defined.

(** ** Course creation *)

(** C6 as stated fails: a creation request with a title and no image, sent
    by a caller who has no teacher profile, is answered 404, not 400. *)
Lemma missing_image_may_be_answered_404 :
  ~ (forall (S : Storage) (req : Request) (w : World),
       truthy (field req "title") = false \/ file req = None ->
       replied (fst (createCourseHandler req w)) = Some BAD_REQUEST
       /\ courses (snd (createCourseHandler req w)) = courses w).
Proof.
  intros Hclaim.
  destruct (Hclaim Fixture.lenient
              (Fixture.request (Some "u9") [] [("title", JStr "Geometry")] None)
              Fixture.world (or_intror eq_refl)) as [Hstatus _].
  vm_compute in Hstatus. discriminate Hstatus.
Qed.

(** C6, amended: a creation request with no title is answered 400; one with
    a title and no image file, sent by a caller who has a teacher profile,
    is answered 400; and whenever the title or the image is missing the
    world is left as it is, so that no course is persisted. *)
Theorem create_without_title_or_image `{Storage} (req : Request) (w : World) :
  (truthy (field req "title") = false ->
   createCourseHandler req w
   = (Threw (AppError BAD_REQUEST "Missing required fields"), w))
  /\ (forall uid t,
        truthy (field req "title") = true -> file req = None ->
        userId req = Some uid -> teacher_of_user w uid = Some t ->
        createCourseHandler req w
        = (Returned {| status := BAD_REQUEST;
                       json := JsonError "No image uploaded" |}, w))
  /\ (truthy (field req "title") = false \/ file req = None ->
      snd (createCourseHandler req w) = w).
Proof.
  split; [|split].
  - intros Ht. unfold createCourseHandler. run_handler. rewrite Ht.
    reflexivity.
  - intros uid t Ht Hf Hu Hteacher. unfold createCourseHandler. run_handler.
    rewrite Ht. simpl. unfold teacher_findUnique_userId.
    rewrite Hu. simpl. rewrite Hteacher. simpl. rewrite Hf. reflexivity.
  - intros Hmiss. unfold createCourseHandler. run_handler.
    destruct (truthy (field req "title")); simpl; [|reflexivity].
    destruct Hmiss as [Hmiss|Hf]; [discriminate|].
    unfold teacher_findUnique_userId.
    destruct (userId req) as [uid|]; simpl; [|reflexivity].
    destruct (teacher_of_user w uid) as [t|]; simpl; [|reflexivity].
    rewrite Hf. reflexivity.
Qed.

(** C6, run: teacher "u1" sends a creation request with an empty title,
    then one with a title and no image. *)
Lemma create_without_title_or_image_witness :
  @createCourseHandler Fixture.lenient
    (Fixture.request (Some "u1") [] [("title", JStr "")]
       (Some {| path := "uploads/cover.png" |}))
    Fixture.world
  = (Threw (AppError BAD_REQUEST "Missing required fields"), Fixture.world)
  /\ @createCourseHandler Fixture.lenient
       (Fixture.request (Some "u1") [] [("title", JStr "Geometry")] None)
       Fixture.world
     = (Returned {| status := BAD_REQUEST;
                    json := JsonError "No image uploaded" |}, Fixture.world).
Proof.
  split.
  - apply (@create_without_title_or_image Fixture.lenient). reflexivity.
  - apply (proj1 (proj2 (@create_without_title_or_image Fixture.lenient _ _))
             "u1" (Teacher.mk "t1" "u1")); reflexivity.
Defined.

(** A well-formed creation request that the store admits is answered 201
    and the new row, stored under the engine's identifier, carries the
    parsed flag. *)
Lemma createCourse_created `{Storage} (req : Request) (w : World) (uid : Id)
    (t : Teacher.t) (f : Upload) (bytes : list Byte.byte) :
  truthy (field req "title") = true ->
  userId req = Some uid -> teacher_of_user w uid = Some t ->
  file req = Some f -> disk w !! path f = Some bytes ->
  courses w !! newId w = None ->
  admits w (CourseCreate (create_data req t bytes)) = true ->
  exists c w',
    createCourseHandler req w
    = (Returned {| status := CREATED; json := JsonCourse c |}, w')
    /\ courses w' !! newId w = Some c
    /\ Course.isPublic c = parseIsPublic (field req "isPublic").
Proof.
  intros Ht Hu Hteacher Hf Hb Hfree Ha.
  exists (new_course (newId w) (create_data req t bytes)). eexists.
  unfold createCourseHandler. run_handler. rewrite Ht. simpl.
  unfold teacher_findUnique_userId. rewrite Hu. simpl. rewrite Hteacher.
  simpl. rewrite Hf. unfold readFileSync. rewrite Hb. simpl.
  unfold try_catch. fold (create_data req t bytes).
  rewrite (course_create_admitted _ w Hfree Ha).
  split; [reflexivity|]. split; [apply lookup_insert_eq | reflexivity].
Qed.

(** An owner's update that the store admits is answered 200 and the stored
    row carries the parsed flag. *)
Lemma updateCourse_updated `{Storage} (req : Request) (w : World)
    (id owner : Id) (c : Course.t) :
  params req !! "courseId" = Some id -> courses w !! id = Some c ->
  owner_of_course w c = Some owner -> userId req = Some owner ->
  upload_readable w req ->
  admits w (CourseUpdate (JStr id) (update_data w req c)) = true ->
  exists c' w',
    updateCourseHandler req w
    = (Returned {| status := OK; json := JsonCourse c' |}, w')
    /\ courses w' !! id = Some c'
    /\ Course.isPublic c' = parseIsPublic (field req "isPublic").
Proof.
  intros Hp Hc Ho Hu Hup Ha.
  rewrite (updateCourse_owner req w id owner Hu c Hp Hc Ho Hup).
  unfold bind. rewrite (course_update_admitted id _ w c Hc Ha). simpl.
  eexists _, _. split; [reflexivity|].
  split; [apply lookup_insert_eq | reflexivity].
Qed.

(** C7: the visibility flag parses to true from the text "true" and from the
    boolean true, and to false from every other value, the absent one
    included.  Both writers persist exactly the parsed flag: a course row
    that create-course or update-course leaves in the table, unless it was
    there unchanged before, carries it; and a creation answered 201 or an
    update answered 200, which is what a well-formed request gets once the
    store admits the write, has stored a row that carries it. *)
Theorem visibility_flag_is_normalized :
  parseIsPublic (JStr "true") = true
  /\ parseIsPublic (JBool true) = true
  /\ (forall v, v <> JStr "true" -> v <> JBool true -> parseIsPublic v = false)
  /\ (forall (S : Storage) req w id c,
        courses (snd (createCourseHandler req w)) !! id = Some c ->
        courses w !! id = Some c
        \/ Course.isPublic c = parseIsPublic (field req "isPublic"))
  /\ (forall (S : Storage) req w id c,
        courses (snd (updateCourseHandler req w)) !! id = Some c ->
        courses w !! id = Some c
        \/ Course.isPublic c = parseIsPublic (field req "isPublic"))
  /\ (forall (S : Storage) req w uid t f bytes,
        truthy (field req "title") = true ->
        userId req = Some uid -> teacher_of_user w uid = Some t ->
        file req = Some f -> disk w !! path f = Some bytes ->
        courses w !! newId w = None ->
        admits w (CourseCreate (create_data req t bytes)) = true ->
        exists c w',
          createCourseHandler req w
          = (Returned {| status := CREATED; json := JsonCourse c |}, w')
          /\ courses w' !! newId w = Some c
          /\ Course.isPublic c = parseIsPublic (field req "isPublic"))
  /\ (forall (S : Storage) req w id owner c,
        params req !! "courseId" = Some id -> courses w !! id = Some c ->
        owner_of_course w c = Some owner -> userId req = Some owner ->
        upload_readable w req ->
        admits w (CourseUpdate (JStr id) (update_data w req c)) = true ->
        exists c' w',
          updateCourseHandler req w
          = (Returned {| status := OK; json := JsonCourse c' |}, w')
          /\ courses w' !! id = Some c'
          /\ Course.isPublic c' = parseIsPublic (field req "isPublic")).
Proof.
  split; [reflexivity|]. split; [reflexivity|].
  split; [|split; [|split; [|split]]].
  - intros v Hs Hb. destruct v as [| |[|]|n|s|l|l]; simpl; try reflexivity.
    + congruence.
    + destruct (String.eqb s "true") eqn:E; [|reflexivity].
      apply String.eqb_eq in E. congruence.
  - intros S req w id c Hrow.
    destruct (createCourse_paths req w) as [Hsame | (d & Hd & Hrun)].
    + rewrite Hsame in Hrow. auto.
    + rewrite Hrun, create_then_respond_world in Hrow.
      apply course_create_rows in Hrow as [Hold | ->]; [auto|].
      right. simpl. exact Hd.
  - intros S req w id c Hrow.
    destruct (updateCourse_paths req w) as [Hsame | (key & d & Hd & Hrun)].
    + rewrite Hsame in Hrow. auto.
    + rewrite Hrun, respond_after_world in Hrow.
      apply course_update_rows in Hrow as [Hold | (c0 & ->)]; [auto|].
      right. simpl. exact Hd.
  - intros S. intros. eapply createCourse_created; eassumption.
  - intros S. intros. eapply updateCourse_updated; eassumption.
Qed.

(** C7, run: teacher "u1" creates a course with [isPublic] sent as the text
    "true", and updates the public course "c1" with [isPublic] sent as the
    text "yes"; the first is stored public, the second private. *)
Lemma visibility_flag_is_normalized_witness :
  (exists c w',
     @createCourseHandler Fixture.lenient
       (Fixture.request (Some "u1") []
          [("title", JStr "Geometry"); ("isPublic", JStr "true")]
          (Some {| path := "uploads/cover.png" |}))
       Fixture.world
     = (Returned {| status := CREATED; json := JsonCourse c |}, w')
     /\ courses w' !! "n1" = Some c
     /\ Course.isPublic c = true)
  /\ (exists c' w',
        @updateCourseHandler Fixture.lenient
          (Fixture.request (Some "u1") [("courseId", "c1")]
             [("title", JStr "Algebra I"); ("isPublic", JStr "yes")] None)
          Fixture.world
        = (Returned {| status := OK; json := JsonCourse c' |}, w')
        /\ courses w' !! "c1" = Some c'
        /\ Course.isPublic c' = false).
Proof.
  destruct visibility_flag_is_normalized
    as (_ & _ & _ & _ & _ & Hcreate & Hupdate).
  split.
  - apply (Hcreate Fixture.lenient
             (Fixture.request (Some "u1") []
                [("title", JStr "Geometry"); ("isPublic", JStr "true")]
                (Some {| path := "uploads/cover.png" |}))
             Fixture.world "u1" (Teacher.mk "t1" "u1")
             {| path := "uploads/cover.png" |} [x4d; x61; x6e]%byte);
      reflexivity.
  - apply (Hupdate Fixture.lenient
             (Fixture.request (Some "u1") [("courseId", "c1")]
                [("title", JStr "Algebra I"); ("isPublic", JStr "yes")] None)
             Fixture.world "c1" "u1" Fixture.algebra);
      solve [reflexivity | exact I].
Defined.

(** ** Content types *)

(** C8: when the topic exists and the caller owns its course, an
    add-content request whose type is not one of TEXT, LINK and
    YOUTUBE_VIDEO is answered 400, for the missing field when one of the
    three fields is falsy and for the invalid type otherwise; the world is
    left as it is, so no content is created. *)
Theorem addContent_rejects_other_types `{Storage} (req : Request) (w : World)
    (tid owner : Id) (t : Topic.t) :
  body req !! "topicId" = Some (JStr tid) ->
  topics w !! tid = Some t ->
  owner_of_topic w t = Some owner ->
  userId req = Some owner ->
  includes validTypes (field req "type") = false ->
  addContentToTopicHandler req w
  = (Threw
       (AppError BAD_REQUEST
          (if truthy (js_and (js_and (JStr tid) (field req "type"))
                        (field req "data"))
           then "Invalid content type"
           else "Missing required fields")), w).
Proof.
  intros Hb Ht Ho Hu Hty. walk_chain. subst owner.
  unfold addContentToTopicHandler. run_handler.
  replace (field req "topicId") with (JStr tid)
    by (unfold field; rewrite Hb; reflexivity).
  destruct (truthy (js_and (js_and (JStr tid) (field req "type"))
                      (field req "data"))); simpl; [|reflexivity].
  rewrite Ht. simpl. unfold include_course, include_teacher. simpl.
  match goal with E : courses _ !! _ = Some _ |- _ => rewrite E end. simpl.
  match goal with E : teachers _ !! _ = Some _ |- _ => rewrite E end. simpl.
  rewrite Hu, same_user_self. simpl. rewrite Hty. reflexivity.
Qed.

(** C8, run: the owner of topic "p1" adds content of type "AUDIO". *)
Lemma addContent_rejects_other_types_witness :
  @addContentToTopicHandler Fixture.lenient
    (Fixture.request (Some "u1") [("topicId", "p1")]
       [("topicId", JStr "p1"); ("type", JStr "AUDIO");
        ("data", JStr "http://x/a.mp3")] None)
    Fixture.world
  = (Threw (AppError BAD_REQUEST "Invalid content type"), Fixture.world).
Proof.
  apply (@addContent_rejects_other_types Fixture.lenient
           (Fixture.request (Some "u1") [("topicId", "p1")]
              [("topicId", JStr "p1"); ("type", JStr "AUDIO");
               ("data", JStr "http://x/a.mp3")] None)
           Fixture.world "p1" "u1" Fixture.chapter1); reflexivity.
Defined.




(** * Further properties of the controller and of the routes *)

(** Runs every path of every handler down to the world it ends in. *)
Ltac all_paths :=
  unfold createCourseHandler, addTopicToCourseHandler,
    addContentToTopicHandler, deleteCourseHandler, updateCourseHandler,
    updateTopicHandler, updateContentHandler, deleteContentHandler,
    getCourseByIdHandler, deleteTopicHandler, getTopicContentHandler,
    getAllCoursesHandler, getPublicCoursesHandler, course_findMany,
    teacher_findUnique_userId, readFileSync, try_catch, course_create,
    topic_create, content_create, course_update, topic_update,
    content_update, course_delete, topic_delete, content_delete, write;
  run_handler;
  repeat (case_match; simpl in *; simplify_eq; simpl);
  simplify_option_eq.

(** ** What a request can do to the store *)

(** X1: whatever the request and the store, a handler issues at most one
    write call, and that call is the one of its own operation (a course
    creation for create-course, a topic deletion for delete-topic, ...); the
    four read handlers issue none and leave the world as it is. *)
Theorem a_request_issues_at_most_its_own_call `{Storage} (op : Operation)
    (req : Request) (w : World) :
  (is_read op = true -> snd (handlerOf op req w) = w)
  /\ (snd (handlerOf op req w) = w
      \/ exists c, own_call op c = true
           /\ journal (snd (handlerOf op req w)) = c :: journal w).
Proof.
  split.
  - destruct op; simpl; try discriminate; intros _; all_paths; reflexivity.
  - destruct op; simpl; all_paths;
      solve [ left; reflexivity
            | right; eexists; split; [|reflexivity]; reflexivity ].
Qed.

(** X1, run: an owner's delete of "p1" issues the one call that deletes
    topic "p1"; reading the contents of "p1" leaves the world as it is. *)
Lemma a_request_issues_at_most_its_own_call_witness :
  journal (snd (@deleteTopicHandler Fixture.lenient
                  (Fixture.request (Some "u1") [("topicId", "p1")] [] None)
                  Fixture.world))
  = [TopicDelete (JStr "p1")]
  /\ snd (getTopicContentHandler
            (Fixture.request None [("topicId", "p1")] [] None) Fixture.world)
     = Fixture.world.
Proof.
  split; [reflexivity|].
  apply (proj1 (@a_request_issues_at_most_its_own_call Fixture.lenient
                  GetTopicContent _ Fixture.world)).
  reflexivity.
Defined.

(** X2: no handler removes or rewrites a file on the disk: an upload that
    was read stays where it was staged.  And no handler other than the three
    deletes, whose effect below the deleted row is the schema's, touches the
    users, the teachers, the subjects, the enrollments, the quizzes or the
    exams. *)
Theorem handlers_leave_the_surroundings `{Storage} (op : Operation)
    (req : Request) (w : World) :
  disk (snd (handlerOf op req w)) = disk w
  /\ (is_delete op = false -> same_surroundings w (snd (handlerOf op req w))).
Proof.
  split.
  - destruct op; simpl; all_paths; reflexivity.
  - unfold same_surroundings.
    destruct op; simpl; try discriminate; intros _; all_paths;
      repeat split; reflexivity.
Qed.

(** X2, run: a creation that reads the staged cover leaves it on the disk,
    and leaves the enrollments and the exams. *)
Lemma handlers_leave_the_surroundings_witness :
  let w' := snd (@createCourseHandler Fixture.lenient
                   (Fixture.request (Some "u1") [] [("title", JStr "Geometry")]
                      (Some {| path := "uploads/cover.png" |}))
                   Fixture.world) in
  disk w' !! "uploads/cover.png" = Some [x4d; x61; x6e]%byte
  /\ enrollments w' = enrollments Fixture.world
  /\ exams w' = exams Fixture.world.
Proof.
  intros w'.
  destruct (@handlers_leave_the_surroundings Fixture.lenient CreateCourse
              (Fixture.request (Some "u1") [] [("title", JStr "Geometry")]
                 (Some {| path := "uploads/cover.png" |}))
              Fixture.world) as [Hdisk Hrest].
  destruct (Hrest eq_refl) as (_ & _ & _ & Henr & _ & Hexams & _).
  split; [|split; [exact Henr | exact Hexams]].
  change (disk w') with
    (disk (snd (@createCourseHandler Fixture.lenient
                  (Fixture.request (Some "u1") []
                     [("title", JStr "Geometry")]
                     (Some {| path := "uploads/cover.png" |}))
                  Fixture.world))).
  simpl in Hdisk. rewrite Hdisk. reflexivity.
Defined.

(** ** Adding a topic *)

(** X3: add-topic checks in this order, each failure leaving the world as it
    is: a falsy [courseId] or [title] in the body is a 400, whoever calls and
    whatever is stored; then a course id that is not stored is a 404; then a
    caller who is not the owner of the course is a 401. *)
Theorem addTopic_checks_in_order `{Storage} (req : Request) (w : World) :
  (truthy (js_and (field req "courseId") (field req "title")) = false ->
   addTopicToCourseHandler req w
   = (Threw (AppError BAD_REQUEST "Missing required fields"), w))
  /\ (forall cid,
        field req "courseId" = JStr cid ->
        truthy (js_and (JStr cid) (field req "title")) = true ->
        courses w !! cid = None ->
        addTopicToCourseHandler req w
        = (Threw (AppError NOT_FOUND "Course not found"), w))
  /\ (forall cid c owner,
        field req "courseId" = JStr cid ->
        truthy (js_and (JStr cid) (field req "title")) = true ->
        courses w !! cid = Some c ->
        owner_of_course w c = Some owner ->
        userId req <> Some owner ->
        addTopicToCourseHandler req w
        = (Threw (AppError UNAUTHORIZED
                    "Unauthorized to add topic to this course"), w)).
Proof.
  split; [|split].
  - intros Hm. unfold addTopicToCourseHandler. run_handler. rewrite Hm.
    reflexivity.
  - intros cid Hf Ht Hc. unfold addTopicToCourseHandler. rewrite Hf.
    run_handler. rewrite Ht. simpl. rewrite Hc. reflexivity.
  - intros cid c owner Hf Ht Hc Ho Hne. walk_chain. subst owner.
    unfold addTopicToCourseHandler. rewrite Hf.
    run_handler. rewrite Ht. simpl. rewrite Hc. simpl.
    unfold include_teacher. simpl.
    match goal with E : teachers _ !! _ = Some _ |- _ => rewrite E end.
    simpl. rewrite (same_user_other _ _ Hne). reflexivity.
Qed.

(** X3, run: an empty title, then a course that is not stored, then the
    course of another teacher. *)
Lemma addTopic_checks_in_order_witness :
  @addTopicToCourseHandler Fixture.lenient
    (Fixture.request (Some "u1") []
       [("courseId", JStr "c1"); ("title", JStr "")] None) Fixture.world
  = (Threw (AppError BAD_REQUEST "Missing required fields"), Fixture.world)
  /\ @addTopicToCourseHandler Fixture.lenient
       (Fixture.request (Some "u1") []
          [("courseId", JStr "c9"); ("title", JStr "Chapter 2")] None)
       Fixture.world
     = (Threw (AppError NOT_FOUND "Course not found"), Fixture.world)
  /\ @addTopicToCourseHandler Fixture.lenient
       (Fixture.request (Some "u1") []
          [("courseId", JStr "c2"); ("title", JStr "Chapter 2")] None)
       Fixture.world
     = (Threw (AppError UNAUTHORIZED
                 "Unauthorized to add topic to this course"), Fixture.world).
Proof.
  split; [|split].
  - apply (proj1 (@addTopic_checks_in_order Fixture.lenient _ _)).
    reflexivity.
  - apply (proj1 (proj2 (@addTopic_checks_in_order Fixture.lenient _ _))
             "c9"); reflexivity.
  - apply (proj2 (proj2 (@addTopic_checks_in_order Fixture.lenient _ _))
             "c2" Fixture.drafts "u2"); solve [reflexivity | discriminate].
Defined.

(** X4: when the owner of a stored course adds a topic with a truthy title
    and the store admits the call under a free identifier, the answer is 201
    with the new topic; the topic is stored under that identifier, titled as
    submitted and attached to the course named in the body; every topic
    stored before is still there. *)
Theorem addTopic_creates_the_topic `{Storage} (req : Request) (w : World)
    (cid owner : Id) (c : Course.t) :
  field req "courseId" = JStr cid ->
  truthy (js_and (JStr cid) (field req "title")) = true ->
  courses w !! cid = Some c ->
  owner_of_course w c = Some owner ->
  userId req = Some owner ->
  topics w !! newId w = None ->
  admits w (TopicCreate (field req "title") (JStr cid)) = true ->
  exists t w',
    addTopicToCourseHandler req w
    = (Returned {| status := CREATED; json := JsonTopic t |}, w')
    /\ topics w' !! newId w = Some t
    /\ Topic.topicId t = newId w
    /\ Topic.title t = field req "title"
    /\ Topic.courseId t = cid
    /\ (forall k t0, topics w !! k = Some t0 -> topics w' !! k = Some t0)
    /\ courses w' = courses w.
Proof.
  intros Hf Ht Hc Ho Hu Hfree Ha. walk_chain. subst owner.
  assert (Htitle : column_init (field req "title") = field req "title").
  { unfold js_and in Ht. simpl in Ht.
    destruct (String.eqb cid "") eqn:E; simpl in Ht; rewrite ?E in Ht;
      [discriminate|].
    destruct (field req "title"); simpl in *; congruence. }
  eexists _, _. unfold addTopicToCourseHandler. rewrite Hf.
  run_handler. rewrite Ht. simpl. rewrite Hc. simpl.
  unfold include_teacher. simpl.
  match goal with E : teachers _ !! _ = Some _ |- _ => rewrite E end.
  simpl. rewrite Hu, same_user_self. simpl.
  unfold topic_create, write. rewrite Ha. simpl. rewrite Hfree. simpl.
  split; [reflexivity|]. simpl.
  split; [apply lookup_insert_eq|]. split; [reflexivity|].
  split; [exact Htitle|]. split; [reflexivity|]. split; [|reflexivity].
  intros k t0 Hk. rewrite lookup_insert_ne; [exact Hk|].
  intros <-. rewrite Hfree in Hk. discriminate.
Qed.

(** X4, run: the owner of "c1" adds "Chapter 2". *)
Lemma addTopic_creates_the_topic_witness :
  exists t w',
    @addTopicToCourseHandler Fixture.lenient
      (Fixture.request (Some "u1") []
         [("courseId", JStr "c1"); ("title", JStr "Chapter 2")] None)
      Fixture.world
    = (Returned {| status := CREATED; json := JsonTopic t |}, w')
    /\ topics w' !! "n1" = Some t
    /\ Topic.title t = JStr "Chapter 2"
    /\ Topic.courseId t = "c1"
    /\ topics w' !! "p1" = Some Fixture.chapter1.
Proof.
  destruct (@addTopic_creates_the_topic Fixture.lenient
              (Fixture.request (Some "u1") []
                 [("courseId", JStr "c1"); ("title", JStr "Chapter 2")] None)
              Fixture.world "c1" "u1" Fixture.algebra
              eq_refl eq_refl eq_refl eq_refl eq_refl eq_refl eq_refl)
    as (t & w' & Hrun & Hrow & _ & Htitle & Hcourse & Hkeep & _).
  exists t, w'. split; [exact Hrun|]. split; [exact Hrow|].
  split; [exact Htitle|]. split; [exact Hcourse|].
  apply Hkeep. reflexivity.
Defined.

(** X5: the two add handlers take the target from the body and never read
    the route parameter: a request routed under any parameters is treated
    like the same request routed under none, so the id in the path
    ([/:courseId/addTopic], [/:topicId/addContent]) decides nothing. *)
Theorem add_handlers_ignore_the_path `{Storage} (req : Request)
    (ps : gmap string string) (w : World) :
  addTopicToCourseHandler (with_params ps req) w
  = addTopicToCourseHandler req w
  /\ addContentToTopicHandler (with_params ps req) w
     = addContentToTopicHandler req w.
Proof. split; reflexivity. Qed.

Lemma truthy_js_and (a b : JsValue) :
  truthy (js_and a b) = truthy a && truthy b.
Proof.
  unfold js_and. destruct (truthy a) eqn:E; simpl; [reflexivity | exact E].
Qed.

Lemma truthy_is_written (v : JsValue) : truthy v = true -> column_init v = v.
Proof. destruct v; simpl; congruence. Qed.

(** ** Adding content *)

(** X6: add-content checks ownership before it looks at the type: when the
    three body fields are truthy, a topic id that is not stored is a 404 and
    a caller who does not own the topic's course is a 401, whether or not
    the type is one of TEXT, LINK and YOUTUBE_VIDEO; the world is left as it
    is. *)
Theorem addContent_checks_owner_before_type `{Storage} (req : Request)
    (w : World) (tid : Id) :
  field req "topicId" = JStr tid ->
  truthy (js_and (js_and (JStr tid) (field req "type")) (field req "data"))
  = true ->
  (topics w !! tid = None ->
   addContentToTopicHandler req w
   = (Threw (AppError NOT_FOUND "Topic not found"), w))
  /\ (forall t owner,
        topics w !! tid = Some t ->
        owner_of_topic w t = Some owner ->
        userId req <> Some owner ->
        addContentToTopicHandler req w
        = (Threw (AppError UNAUTHORIZED
                    "Unauthorized to add content to this topic"), w)).
Proof.
  intros Hf Ht. split.
  - intros Hnone. unfold addContentToTopicHandler. rewrite Hf.
    run_handler. rewrite Ht. simpl. rewrite Hnone. reflexivity.
  - intros t owner Htopic Ho Hne. walk_chain. subst owner.
    unfold addContentToTopicHandler. rewrite Hf.
    run_handler. rewrite Ht. simpl. rewrite Htopic. simpl.
    unfold include_course, include_teacher. simpl.
    match goal with E : courses _ !! _ = Some _ |- _ => rewrite E end. simpl.
    match goal with E : teachers _ !! _ = Some _ |- _ => rewrite E end.
    simpl. rewrite (same_user_other _ _ Hne). reflexivity.
Qed.

(** X6, run: user "u2" sends content of type "AUDIO" for topic "p1" of user
    "u1", and is answered 401, not 400. *)
Lemma addContent_checks_owner_before_type_witness :
  includes validTypes (JStr "AUDIO") = false
  /\ @addContentToTopicHandler Fixture.lenient
       (Fixture.request (Some "u2") []
          [("topicId", JStr "p1"); ("type", JStr "AUDIO");
           ("data", JStr "http://x/a.mp3")] None)
       Fixture.world
     = (Threw (AppError UNAUTHORIZED
                 "Unauthorized to add content to this topic"), Fixture.world).
Proof.
  split; [reflexivity|].
  apply (proj2 (@addContent_checks_owner_before_type Fixture.lenient
                  (Fixture.request (Some "u2") []
                     [("topicId", JStr "p1"); ("type", JStr "AUDIO");
                      ("data", JStr "http://x/a.mp3")] None)
                  Fixture.world "p1" eq_refl eq_refl)
           Fixture.chapter1 "u1");
    solve [reflexivity | discriminate].
Defined.

(** X7: when the owner of a stored topic's course adds content whose type is
    one of TEXT, LINK and YOUTUBE_VIDEO with truthy data, and the store
    admits the call under a free identifier, the answer is 201 with the new
    item, stored with the type and the data as submitted under the topic of
    the body; reading the contents of that topic afterwards is answered 200
    with a list that holds the new item. *)
Theorem addContent_creates_the_item `{Storage} (req : Request) (w : World)
    (tid owner : Id) (t : Topic.t) :
  field req "topicId" = JStr tid ->
  truthy (js_and (js_and (JStr tid) (field req "type")) (field req "data"))
  = true ->
  topics w !! tid = Some t ->
  Topic.topicId t = tid ->
  owner_of_topic w t = Some owner ->
  userId req = Some owner ->
  includes validTypes (field req "type") = true ->
  contents w !! newId w = None ->
  admits w (ContentCreate (field req "type") (field req "data") (JStr tid))
  = true ->
  exists c w',
    addContentToTopicHandler req w
    = (Returned {| status := CREATED; json := JsonContent c |}, w')
    /\ contents w' !! newId w = Some c
    /\ Content.type c = field req "type"
    /\ Content.data c = field req "data"
    /\ Content.topicId c = tid
    /\ (forall reader, params reader !! "topicId" = Some tid ->
          exists l,
            getTopicContentHandler reader w'
            = (Returned {| status := OK; json := JsonContents l |}, w')
            /\ c ∈ l).
Proof.
  intros Hf Ht Htopic Hid Ho Hu Hty Hfree Ha. walk_chain. subst owner.
  assert (Hfields : truthy (field req "type") = true
                    /\ truthy (field req "data") = true).
  { rewrite !truthy_js_and in Ht.
    apply andb_true_iff in Ht as [Ht Hd]. apply andb_true_iff in Ht as [_ Ht].
    split; assumption. }
  destruct Hfields as [Htype%truthy_is_written Hdata%truthy_is_written].
  eexists _, _. unfold addContentToTopicHandler. rewrite Hf.
  run_handler. rewrite Ht. simpl. rewrite Htopic. simpl.
  unfold include_course, include_teacher. simpl.
  match goal with E : courses _ !! _ = Some _ |- _ => rewrite E end. simpl.
  match goal with E : teachers _ !! _ = Some _ |- _ => rewrite E end.
  simpl. rewrite Hu, same_user_self. simpl. rewrite Hty. simpl.
  unfold content_create, write. rewrite Ha. simpl. rewrite Hfree. simpl.
  split; [reflexivity|]. simpl.
  split; [apply lookup_insert_eq|]. split; [exact Htype|].
  split; [exact Hdata|]. split; [reflexivity|].
  intros reader Hp. eexists. unfold getTopicContentHandler.
  rewrite (param_bound _ _ _ Hp). run_handler. rewrite Htopic. simpl.
  split; [reflexivity|].
  unfold contents_of. apply list_elem_of_filter. split; [simpl; congruence|].
  apply rows_spec. exists (newId w). simpl. apply lookup_insert_eq.
Qed.

(** X7, run: the owner of topic "p1" adds a YouTube video; it is stored and
    listed. *)
Lemma addContent_creates_the_item_witness :
  exists c w',
    @addContentToTopicHandler Fixture.lenient
      (Fixture.request (Some "u1") []
         [("topicId", JStr "p1"); ("type", JStr "YOUTUBE_VIDEO");
          ("data", JStr "https://youtu.be/x")] None)
      Fixture.world
    = (Returned {| status := CREATED; json := JsonContent c |}, w')
    /\ contents w' !! "n1" = Some c
    /\ Content.type c = JStr "YOUTUBE_VIDEO"
    /\ exists l,
         getTopicContentHandler
           (Fixture.request None [("topicId", "p1")] [] None) w'
         = (Returned {| status := OK; json := JsonContents l |}, w')
         /\ c ∈ l.
Proof.
  destruct (@addContent_creates_the_item Fixture.lenient
              (Fixture.request (Some "u1") []
                 [("topicId", JStr "p1"); ("type", JStr "YOUTUBE_VIDEO");
                  ("data", JStr "https://youtu.be/x")] None)
              Fixture.world "p1" "u1" Fixture.chapter1
              eq_refl eq_refl eq_refl eq_refl eq_refl eq_refl eq_refl
              eq_refl eq_refl)
    as (c & w' & Hrun & Hrow & Hty & _ & _ & Hread).
  exists c, w'. split; [exact Hrun|]. split; [exact Hrow|].
  split; [exact Hty|].
  apply (Hread (Fixture.request None [("topicId", "p1")] [] None)).
  reflexivity.
Defined.

(** ** Reading *)

(** X8: get-topic-content answers 404 for a topic id that is not stored and
    otherwise 200 with exactly the content items attached to the topic; it
    makes no ownership check, so the answer is the same for every caller
    identity, the absent one included. *)
Theorem topic_content_is_read_by_anyone (req : Request) (w : World) (id : Id)
    (caller : option Id) :
  params req !! "topicId" = Some id ->
  getTopicContentHandler (as_caller caller req) w
  = getTopicContentHandler req w
  /\ (topics w !! id = None ->
      getTopicContentHandler req w
      = (Threw (AppError NOT_FOUND "Topic not found"), w))
  /\ (forall t, topics w !! id = Some t ->
        exists l,
          getTopicContentHandler req w
          = (Returned {| status := OK; json := JsonContents l |}, w)
          /\ forall c, c ∈ l
               <-> (exists k, contents w !! k = Some c)
                   /\ Content.topicId c = Topic.topicId t).
Proof.
  intros Hp. split; [reflexivity|].
  unfold getTopicContentHandler. rewrite (param_bound _ _ _ Hp). run_handler.
  split.
  - intros ->. reflexivity.
  - intros t ->. eexists. split; [reflexivity|]. intros c. simpl.
    unfold contents_of. rewrite list_elem_of_filter, rows_spec. tauto.
Qed.

(** X8, run: the contents of "p1" read by a caller with no identity. *)
Lemma topic_content_is_read_by_anyone_witness :
  getTopicContentHandler
    (Fixture.request None [("topicId", "p1")] [] None) Fixture.world
  = (Returned {| status := OK; json := JsonContents [Fixture.link] |},
     Fixture.world)
  /\ getTopicContentHandler
       (Fixture.request None [("topicId", "p9")] [] None) Fixture.world
     = (Threw (AppError NOT_FOUND "Topic not found"), Fixture.world).
Proof.
  split; [reflexivity|].
  apply (proj1 (proj2 (topic_content_is_read_by_anyone
                         (Fixture.request None [("topicId", "p9")] [] None)
                         Fixture.world "p9" None eq_refl))).
  reflexivity.
Defined.

(** X9: get-course-by-id answers 404 for a course id that is not stored, and
    it reads a private course like a public one, for any caller: neither the
    visibility flag nor the caller's identity enters the answer. *)
Theorem course_detail_is_read_by_anyone (req : Request) (w : World) (id : Id)
    (caller : option Id) :
  params req !! "courseId" = Some id ->
  getCourseByIdHandler (as_caller caller req) w = getCourseByIdHandler req w
  /\ (courses w !! id = None ->
      getCourseByIdHandler req w
      = (Threw (AppError NOT_FOUND "Course not found"), w))
  /\ (forall c, courses w !! id = Some c -> Course.isPublic c = false ->
        exists d,
          getCourseByIdHandler req w
          = (Returned {| status := OK; json := JsonCourseDetail d |}, w)
          /\ cd_course d = c).
Proof.
  intros Hp. split; [reflexivity|].
  unfold getCourseByIdHandler. rewrite (param_bound _ _ _ Hp). run_handler.
  split.
  - intros ->. reflexivity.
  - intros c -> _. eexists. split; reflexivity.
Qed.

(** X9, run: the private course "c2" is read by user "u1", who does not own
    it. *)
Lemma course_detail_is_read_by_anyone_witness :
  exists d,
    getCourseByIdHandler
      (Fixture.request (Some "u1") [("courseId", "c2")] [] None) Fixture.world
    = (Returned {| status := OK; json := JsonCourseDetail d |}, Fixture.world)
    /\ cd_course d = Fixture.drafts.
Proof.
  apply (proj2 (proj2 (course_detail_is_read_by_anyone
                         (Fixture.request (Some "u1") [("courseId", "c2")]
                            [] None)
                         Fixture.world "c2" None eq_refl))
           Fixture.drafts); reflexivity.
Defined.

(** X10: get-all-courses lists every stored course, private ones included,
    each once per row and each with its teacher and the teacher's names; the
    list is as long as the table is large. *)
Theorem all_courses_lists_private_ones_too (req : Request) (w : World) :
  exists l,
    getAllCoursesHandler req w
    = (Returned {| status := OK; json := JsonCourses l |}, w)
    /\ length l = size (courses w)
    /\ (forall item, item ∈ l
          <-> exists k c, courses w !! k = Some c
                /\ item = {| li_course := c;
                             li_teacher := teacher_with_user w c |}).
Proof.
  eexists. unfold getAllCoursesHandler, course_findMany. run_handler.
  rewrite filter_all. split; [reflexivity|]. split.
  - rewrite !length_fmap. apply length_map_to_list.
  - intros item. rewrite list_elem_of_fmap. split.
    + intros (c & -> & Hin). apply rows_spec in Hin as [k Hk]. eauto.
    + intros (k & c & Hk & ->). exists c. split; [reflexivity|].
      apply rows_spec. eauto.
Qed.

(** X11: in the public list every topic of a listed course comes with its
    content items, and the course comes with its subject; the topics listed
    are exactly the topics attached to the course. *)
Theorem public_list_carries_topics_and_contents (req : Request) (w : World) :
  exists l,
    getPublicCoursesHandler req w
    = (Returned {| status := OK; json := JsonPublicCourses l |}, w)
    /\ forall pc, pc ∈ l ->
         pc_subject pc
         = (where_key (Course.subjectId (pc_course pc))
              ≫= fun s => subjects w !! s)
         /\ forall tv, tv ∈ pc_topics pc
              <-> exists k t,
                    topics w !! k = Some t
                    /\ Topic.courseId t = Course.courseId (pc_course pc)
                    /\ tv = {| tv_topic := t;
                               tv_contents := Some (contents_of w t) |}.
Proof.
  eexists. split; [reflexivity|]. intros pc Hin.
  apply list_elem_of_fmap in Hin as (c & -> & _). simpl.
  split; [reflexivity|]. intros tv. apply (topics_of_spec w true c).
Qed.

(** X11, run: on the sample store every topic of the public list comes with
    a list of contents. *)
Lemma public_list_carries_topics_and_contents_witness :
  exists l,
    getPublicCoursesHandler Fixture.anonymous Fixture.world
    = (Returned {| status := OK; json := JsonPublicCourses l |}, Fixture.world)
    /\ Forall
         (fun pc => Forall (fun tv => is_Some (tv_contents tv)) (pc_topics pc))
         l.
Proof.
  destruct (public_list_carries_topics_and_contents
              Fixture.anonymous Fixture.world) as (l & Hrun & Hall).
  exists l. split; [exact Hrun|].
  apply Forall_forall. intros pc Hin. apply Forall_forall. intros tv Htv.
  destruct (proj1 (proj2 (Hall pc Hin) tv) Htv) as (k & t & _ & _ & ->).
  simpl. eauto.
Defined.

(** ** Updating a course *)

(** X12: whatever the request, update-course neither adds nor removes a
    course, and a course keeps its id and its teacher: the owner of a course
    cannot be changed through an update. *)
Theorem updateCourse_keeps_keys_and_owner `{Storage} (req : Request)
    (w : World) (id : Id) :
  (courses (snd (updateCourseHandler req w)) !! id = None
   <-> courses w !! id = None)
  /\ (forall c', courses (snd (updateCourseHandler req w)) !! id = Some c' ->
        exists c, courses w !! id = Some c
          /\ Course.courseId c' = Course.courseId c
          /\ Course.teacherId c' = Course.teacherId c).
Proof.
  destruct (updateCourse_paths req w) as [-> | (key & d & _ & ->)].
  { split; [reflexivity|]. intros c' Hc. eauto. }
  rewrite respond_after_world. unfold course_update, write.
  destruct (admits w (CourseUpdate key d)); simpl;
    [|split; [reflexivity | eauto]].
  destruct (where_key key) as [k|]; simpl; [|split; [reflexivity | eauto]].
  destruct (courses w !! k) as [c0|] eqn:Hk; simpl;
    [|split; [reflexivity | eauto]].
  rewrite lookup_insert. case_decide as Hid.
  - subst k. rewrite Hk. split; [split; discriminate|].
    intros c' [= <-]. exists c0. repeat split.
  - split; [reflexivity | eauto].
Qed.

(** X13: an owner's update that the store admits keeps the image of the
    course when the request has no file, and stores the Base64 text of the
    upload when it has one. *)
Theorem updateCourse_image `{Storage} (req : Request) (w : World)
    (id owner : Id) (c : Course.t) :
  params req !! "courseId" = Some id ->
  courses w !! id = Some c ->
  owner_of_course w c = Some owner ->
  userId req = Some owner ->
  upload_readable w req ->
  admits w (CourseUpdate (JStr id) (update_data w req c)) = true ->
  exists c',
    courses (snd (updateCourseHandler req w)) !! id = Some c'
    /\ (file req = None -> Course.image c' = Course.image c)
    /\ (forall f bytes, file req = Some f -> disk w !! path f = Some bytes ->
          Course.image c' = Some (base64 bytes)).
Proof.
  intros Hp Hc Ho Hu Hup Ha.
  rewrite (updateCourse_owner req w id owner Hu c Hp Hc Ho Hup).
  rewrite respond_after_world, (course_update_admitted id _ w c Hc Ha).
  simpl. eexists. split; [apply lookup_insert_eq|]. simpl.
  unfold update_image. split.
  - intros ->. reflexivity.
  - intros f bytes -> ->. reflexivity.
Qed.

(** X13, run: the owner of "c1" updates once without a file and once with
    the staged cover, whose three bytes encode to "TWFu". *)
Lemma updateCourse_image_witness :
  (exists c',
     courses
       (snd (@updateCourseHandler Fixture.lenient
               (Fixture.request (Some "u1") [("courseId", "c1")]
                  [("title", JStr "Algebra II")] None) Fixture.world))
     !! "c1" = Some c'
     /\ Course.image c' = Course.image Fixture.algebra)
  /\ (exists c',
        courses
          (snd (@updateCourseHandler Fixture.lenient
                  (Fixture.request (Some "u2") [("courseId", "c2")] []
                     (Some {| path := "uploads/cover.png" |}))
                  Fixture.world))
        !! "c2" = Some c'
        /\ Course.image c' = Some "TWFu").
Proof.
  split.
  - destruct (@updateCourse_image Fixture.lenient
                (Fixture.request (Some "u1") [("courseId", "c1")]
                   [("title", JStr "Algebra II")] None)
                Fixture.world "c1" "u1" Fixture.algebra
                eq_refl eq_refl eq_refl eq_refl I eq_refl)
      as (c' & Hrow & Hkeep & _).
    exists c'. split; [exact Hrow | apply Hkeep; reflexivity].
  - destruct (@updateCourse_image Fixture.lenient
                (Fixture.request (Some "u2") [("courseId", "c2")] []
                   (Some {| path := "uploads/cover.png" |}))
                Fixture.world "c2" "u2" Fixture.drafts
                eq_refl eq_refl eq_refl eq_refl
                (ex_intro _ _ eq_refl) eq_refl)
      as (c' & Hrow & _ & Hnew).
    exists c'. split; [exact Hrow|].
    apply (Hnew {| path := "uploads/cover.png" |} [x4d; x61; x6e]%byte);
      reflexivity.
Defined.

Lemma column_set_twice (old new : JsValue) :
  column_set (column_set old new) new = column_set old new.
Proof. destruct new; reflexivity. Qed.

Lemma updated_course_twice (c : Course.t) (d : CourseUpdateData) :
  updated_course (updated_course c d) d = updated_course c d.
Proof.
  unfold updated_course. simpl. rewrite !column_set_twice. reflexivity.
Qed.

(** X12, run: a stranger's and the owner's update both leave "c1" with its
    teacher "t1". *)
Lemma updateCourse_keeps_keys_and_owner_witness :
  exists c',
    courses
      (snd (@updateCourseHandler Fixture.lenient
              (Fixture.request (Some "u1") [("courseId", "c1")]
                 [("title", JStr "Algebra II"); ("teacherId", JStr "t2")]
                 None) Fixture.world))
    !! "c1" = Some c'
    /\ Course.title c' = JStr "Algebra II"
    /\ Course.teacherId c' = "t1".
Proof.
  eexists. split; [reflexivity|]. split; [reflexivity|].
  destruct (proj2 (@updateCourse_keeps_keys_and_owner Fixture.lenient
                     (Fixture.request (Some "u1") [("courseId", "c1")]
                        [("title", JStr "Algebra II");
                         ("teacherId", JStr "t2")] None)
                     Fixture.world "c1") _ eq_refl)
    as (c & Hc & _ & Hteacher).
  injection Hc as <-. exact Hteacher.
Defined.

(** X14: sending the same update of a course twice, both writes admitted,
    gives the same answer the second time and leaves the course table as the
    first update left it. *)
Theorem updateCourse_twice `{Storage} (req : Request) (w : World)
    (id owner : Id) (c : Course.t) :
  params req !! "courseId" = Some id ->
  courses w !! id = Some c ->
  owner_of_course w c = Some owner ->
  userId req = Some owner ->
  upload_readable w req ->
  let d := update_data w req c in
  let w1 := snd (updateCourseHandler req w) in
  admits w (CourseUpdate (JStr id) d) = true ->
  admits w1 (CourseUpdate (JStr id) d) = true ->
  fst (updateCourseHandler req w1) = fst (updateCourseHandler req w)
  /\ fst (updateCourseHandler req w)
     = Returned {| status := OK; json := JsonCourse (updated_course c d) |}
  /\ courses (snd (updateCourseHandler req w1)) = courses w1.
Proof.
  intros Hp Hc Ho Hu Hup d w1 Ha Ha1.
  assert (Hrun : updateCourseHandler req w
                 = (Returned {| status := OK;
                                json := JsonCourse (updated_course c d) |},
                    with_courses (<[id := updated_course c d]> (courses w))
                      (issue (CourseUpdate (JStr id) d) w))).
  { rewrite (updateCourse_owner req w id owner Hu c Hp Hc Ho Hup).
    unfold bind. fold d. rewrite (course_update_admitted id d w c Hc Ha).
    reflexivity. }
  assert (Hw1 : w1 = with_courses (<[id := updated_course c d]> (courses w))
                       (issue (CourseUpdate (JStr id) d) w)).
  { unfold w1. rewrite Hrun. reflexivity. }
  assert (Hc1 : courses w1 !! id = Some (updated_course c d)).
  { rewrite Hw1. simpl. apply lookup_insert_eq. }
  assert (Ho1 : owner_of_course w1 (updated_course c d) = Some owner).
  { rewrite Hw1. exact Ho. }
  assert (Hup1 : upload_readable w1 req).
  { rewrite Hw1. exact Hup. }
  assert (Hd1 : update_data w1 req (updated_course c d) = d).
  { rewrite Hw1. unfold d, update_data, update_image. simpl.
    destruct (file req); reflexivity. }
  rewrite (updateCourse_owner req w1 id owner Hu _ Hp Hc1 Ho1 Hup1), Hd1.
  unfold bind. rewrite (course_update_admitted id d w1 _ Hc1 Ha1).
  rewrite updated_course_twice, Hrun. simpl.
  split; [reflexivity|]. split; [reflexivity|].
  rewrite Hw1. simpl. apply insert_insert_eq.
Qed.

(** X14, run: the owner of "c1" sends the same update twice. *)
Lemma updateCourse_twice_witness :
  let req := Fixture.request (Some "u1") [("courseId", "c1")]
               [("title", JStr "Algebra II"); ("isPublic", JBool false)]
               None in
  let w1 := snd (@updateCourseHandler Fixture.lenient req Fixture.world) in
  fst (@updateCourseHandler Fixture.lenient req w1)
  = fst (@updateCourseHandler Fixture.lenient req Fixture.world)
  /\ courses (snd (@updateCourseHandler Fixture.lenient req w1)) = courses w1.
Proof.
  intros req w1.
  destruct (@updateCourse_twice Fixture.lenient req Fixture.world "c1" "u1"
              Fixture.algebra eq_refl eq_refl eq_refl eq_refl I
              eq_refl eq_refl) as (Hsame & _ & Htable).
  split; [exact Hsame | exact Htable].
Defined.

(** X15: update-course has no handler for a refused write: when the store
    refuses the owner's update, the exception of the storage client leaves
    the handler as it is, no 400 answer is made, and the course table is
    unchanged.  Create-course catches the same refusal and answers 400
    "Failed to create course", the course table unchanged. *)
Theorem refused_write_is_caught_by_create_only `{Storage} (w : World) :
  (forall req id owner c,
     params req !! "courseId" = Some id ->
     courses w !! id = Some c ->
     owner_of_course w c = Some owner ->
     userId req = Some owner ->
     upload_readable w req ->
     admits w (CourseUpdate (JStr id) (update_data w req c)) = false ->
     fst (updateCourseHandler req w) = Threw ClientError
     /\ courses (snd (updateCourseHandler req w)) = courses w)
  /\ (forall req uid t f bytes,
        truthy (field req "title") = true ->
        userId req = Some uid -> teacher_of_user w uid = Some t ->
        file req = Some f -> disk w !! path f = Some bytes ->
        admits w (CourseCreate (create_data req t bytes)) = false
        \/ is_Some (courses w !! newId w) ->
        fst (createCourseHandler req w)
        = Returned {| status := BAD_REQUEST;
                      json := JsonError "Failed to create course" |}
        /\ courses (snd (createCourseHandler req w)) = courses w).
Proof.
  split.
  - intros req id owner c Hp Hc Ho Hu Hup Ha.
    rewrite (updateCourse_owner req w id owner Hu c Hp Hc Ho Hup).
    unfold bind, course_update, write. rewrite Ha. split; reflexivity.
  - intros req uid t f bytes Ht Hu Hteacher Hf Hb Hrefused.
    unfold createCourseHandler. run_handler. rewrite Ht. simpl.
    unfold teacher_findUnique_userId. rewrite Hu. simpl. rewrite Hteacher.
    simpl. rewrite Hf. unfold readFileSync. rewrite Hb. simpl.
    unfold try_catch, course_create, write. fold (create_data req t bytes).
    destruct (admits w (CourseCreate (create_data req t bytes))) eqn:Ha;
      simpl; [|split; reflexivity].
    destruct Hrefused as [Hno | [c0 Htaken]]; [discriminate|].
    rewrite Htaken. split; reflexivity.
Qed.

(** X15, run: under an engine that refuses every write, the owner's update
    of "c1" throws and teacher "u1"'s creation is answered 400. *)
Lemma refused_write_is_caught_by_create_only_witness :
  fst (@updateCourseHandler Fixture.strict
         (Fixture.request (Some "u1") [("courseId", "c1")]
            [("title", JStr "Algebra II")] None) Fixture.world)
  = Threw ClientError
  /\ fst (@createCourseHandler Fixture.strict
            (Fixture.request (Some "u1") [] [("title", JStr "Geometry")]
               (Some {| path := "uploads/cover.png" |})) Fixture.world)
     = Returned {| status := BAD_REQUEST;
                   json := JsonError "Failed to create course" |}.
Proof.
  destruct (@refused_write_is_caught_by_create_only Fixture.strict
              Fixture.world) as [Hupdate Hcreate].
  split.
  - apply (Hupdate _ "c1" "u1" Fixture.algebra); solve [reflexivity | exact I].
  - apply (Hcreate _ "u1" (Teacher.mk "t1" "u1")
             {| path := "uploads/cover.png" |} [x4d; x61; x6e]%byte);
      solve [reflexivity | left; reflexivity].
Defined.

(** ** Creating a course *)

(** X16: create-course looks for the caller's teacher profile right after
    the title check: a caller with a title and no teacher profile is
    answered 404 "Teacher not found", with or without an image, and the
    world is left as it is. *)
Theorem create_needs_a_teacher_profile `{Storage} (req : Request) (w : World)
    (uid : Id) :
  truthy (field req "title") = true ->
  userId req = Some uid ->
  teacher_of_user w uid = None ->
  createCourseHandler req w
  = (Returned {| status := NOT_FOUND; json := JsonError "Teacher not found" |},
     w).
Proof.
  intros Ht Hu Hteacher. unfold createCourseHandler. run_handler.
  rewrite Ht. simpl. unfold teacher_findUnique_userId. rewrite Hu. simpl.
  rewrite Hteacher. reflexivity.
Qed.

(** X16, run: user "u9" has no teacher profile and sends a complete
    request. *)
Lemma create_needs_a_teacher_profile_witness :
  @createCourseHandler Fixture.lenient
    (Fixture.request (Some "u9") [] [("title", JStr "Geometry")]
       (Some {| path := "uploads/cover.png" |})) Fixture.world
  = (Returned {| status := NOT_FOUND; json := JsonError "Teacher not found" |},
     Fixture.world).
Proof.
  apply (@create_needs_a_teacher_profile Fixture.lenient _ _ "u9");
    reflexivity.
Defined.

Lemma teacher_of_user_spec (w : World) (uid : Id) (t : Teacher.t) :
  teacher_of_user w uid = Some t ->
  Teacher.userId t = uid /\ exists k, teachers w !! k = Some t.
Proof.
  unfold teacher_of_user. intros Hhead.
  assert (Hin : t ∈ filter (fun t => Teacher.userId t = uid)
                      (snd <$> map_to_list (teachers w))).
  { destruct (filter _ _) as [|x l]; simpl in Hhead; [discriminate|].
    injection Hhead as ->. left. }
  apply list_elem_of_filter in Hin as [Hu Hin].
  split; [exact Hu | apply rows_spec; exact Hin].
Qed.

(** X17: a created course belongs to its creator.  When the caller's
    teacher profile is stored under its own id and the creation is answered
    201, the new course has the caller as the user at the top of its
    ownership chain, holds the Base64 text of the upload as its image, and is
    the only change to the course table. *)
Theorem creator_owns_the_course `{Storage} (req : Request) (w : World)
    (uid : Id) (t : Teacher.t) (f : Upload) (bytes : list Byte.byte) :
  truthy (field req "title") = true ->
  userId req = Some uid -> teacher_of_user w uid = Some t ->
  teachers w !! Teacher.teacherId t = Some t ->
  file req = Some f -> disk w !! path f = Some bytes ->
  courses w !! newId w = None ->
  admits w (CourseCreate (create_data req t bytes)) = true ->
  exists c w',
    createCourseHandler req w
    = (Returned {| status := CREATED; json := JsonCourse c |}, w')
    /\ courses w' = <[newId w := c]> (courses w)
    /\ Course.courseId c = newId w
    /\ Course.title c = field req "title"
    /\ Course.image c = Some (base64 bytes)
    /\ target_owner w' KCourse (newId w) = Some uid.
Proof.
  intros Ht Hu Hteacher Hkey Hf Hb Hfree Ha.
  destruct (teacher_of_user_spec w uid t Hteacher) as [Huid _].
  eexists _, _.
  unfold createCourseHandler. run_handler. rewrite Ht. simpl.
  unfold teacher_findUnique_userId. rewrite Hu. simpl. rewrite Hteacher.
  simpl. rewrite Hf. unfold readFileSync. rewrite Hb. simpl.
  unfold try_catch. fold (create_data req t bytes).
  rewrite (course_create_admitted _ w Hfree Ha).
  split; [reflexivity|]. simpl. split; [reflexivity|].
  split; [reflexivity|]. split; [apply truthy_is_written; exact Ht|].
  split; [reflexivity|].
  rewrite lookup_insert_eq. simpl. unfold owner_of_course. simpl.
  rewrite Hkey. simpl. congruence.
Qed.

(** X17, run: teacher "u1" creates "Geometry" and owns it. *)
Lemma creator_owns_the_course_witness :
  exists c w',
    @createCourseHandler Fixture.lenient
      (Fixture.request (Some "u1") [] [("title", JStr "Geometry")]
         (Some {| path := "uploads/cover.png" |})) Fixture.world
    = (Returned {| status := CREATED; json := JsonCourse c |}, w')
    /\ Course.image c = Some "TWFu"
    /\ target_owner w' KCourse "n1" = Some "u1".
Proof.
  destruct (@creator_owns_the_course Fixture.lenient
              (Fixture.request (Some "u1") [] [("title", JStr "Geometry")]
                 (Some {| path := "uploads/cover.png" |}))
              Fixture.world "u1" (Teacher.mk "t1" "u1")
              {| path := "uploads/cover.png" |} [x4d; x61; x6e]%byte
              eq_refl eq_refl eq_refl eq_refl eq_refl eq_refl eq_refl
              eq_refl)
    as (c & w' & Hrun & _ & _ & _ & Himage & Howner).
  exists c, w'. split; [exact Hrun|]. split; [exact Himage | exact Howner].
Defined.

(** X18: creation and the public list compose: after a creation answered
    201, the public list is answered 200 and holds the new course when its
    [isPublic] was sent as "true" or true, and does not hold it for any
    other value. *)
Theorem created_course_and_the_public_list `{Storage} (req reader : Request)
    (w : World) (uid : Id) (t : Teacher.t) (f : Upload)
    (bytes : list Byte.byte) :
  truthy (field req "title") = true ->
  userId req = Some uid -> teacher_of_user w uid = Some t ->
  file req = Some f -> disk w !! path f = Some bytes ->
  courses w !! newId w = None ->
  admits w (CourseCreate (create_data req t bytes)) = true ->
  exists c w' l,
    createCourseHandler req w
    = (Returned {| status := CREATED; json := JsonCourse c |}, w')
    /\ getPublicCoursesHandler reader w'
       = (Returned {| status := OK; json := JsonPublicCourses l |}, w')
    /\ (parseIsPublic (field req "isPublic") = true ->
        exists pc, pc ∈ l /\ pc_course pc = c)
    /\ (parseIsPublic (field req "isPublic") = false ->
        forall pc, pc ∈ l -> pc_course pc <> c).
Proof.
  intros Ht Hu Hteacher Hf Hb Hfree Ha.
  destruct (createCourse_created req w uid t f bytes Ht Hu Hteacher Hf Hb
              Hfree Ha) as (c & w' & Hrun & Hrow & Hflag).
  exists c, w'. eexists. split; [exact Hrun|].
  split; [reflexivity|]. split.
  - intros Hpub. exists (public_course w' c). split; [|reflexivity].
    apply list_elem_of_fmap. exists c. split; [reflexivity|].
    apply list_elem_of_filter. split; [congruence|].
    apply rows_spec. eauto.
  - intros Hpriv pc Hin.
    apply list_elem_of_fmap in Hin as (c0 & -> & Hin).
    apply list_elem_of_filter in Hin as [Hpub _]. simpl.
    intros ->. congruence.
Qed.

(** X18, run: "Geometry" is created with [isPublic] "true" and listed. *)
Lemma created_course_and_the_public_list_witness :
  exists c w' l,
    @createCourseHandler Fixture.lenient
      (Fixture.request (Some "u1") []
         [("title", JStr "Geometry"); ("isPublic", JStr "true")]
         (Some {| path := "uploads/cover.png" |})) Fixture.world
    = (Returned {| status := CREATED; json := JsonCourse c |}, w')
    /\ getPublicCoursesHandler Fixture.anonymous w'
       = (Returned {| status := OK; json := JsonPublicCourses l |}, w')
    /\ exists pc, pc ∈ l /\ pc_course pc = c.
Proof.
  destruct (@created_course_and_the_public_list Fixture.lenient
              (Fixture.request (Some "u1") []
                 [("title", JStr "Geometry"); ("isPublic", JStr "true")]
                 (Some {| path := "uploads/cover.png" |}))
              Fixture.anonymous Fixture.world "u1" (Teacher.mk "t1" "u1")
              {| path := "uploads/cover.png" |} [x4d; x61; x6e]%byte
              eq_refl eq_refl eq_refl eq_refl eq_refl eq_refl eq_refl)
    as (c & w' & l & Hrun & Hlist & Hpub & _).
  exists c, w', l. split; [exact Hrun|]. split; [exact Hlist|].
  apply Hpub. reflexivity.
Defined.

(** ** Deleting, and updating a topic *)

Section OwnerDeletes.
Context `{Storage}.
Variables (req : Request) (w : World) (id owner : Id).
Hypothesis caller_owns : userId req = Some owner.

Lemma deleteCourse_owner (c : Course.t) :
  params req !! "courseId" = Some id -> courses w !! id = Some c ->
  owner_of_course w c = Some owner ->
  admits w (CourseDelete (JStr id)) = true ->
  exists w',
    deleteCourseHandler req w
    = (Returned {| status := OK;
                   json := JsonMessage "Course deleted successfully" |}, w')
    /\ courses w' = delete id (courses w)
    /\ teachers w' = teachers w.
Proof.
  intros Hp Hc Ho Ha. walk_chain. subst owner. eexists.
  unfold deleteCourseHandler. rewrite (param_bound _ _ _ Hp).
  run_handler. rewrite Hc. simpl. unfold include_teacher. simpl.
  match goal with E : teachers _ !! _ = Some _ |- _ => rewrite E end.
  simpl. rewrite caller_owns, same_user_self. simpl.
  unfold course_delete, write. rewrite Ha. simpl. rewrite Hc. simpl.
  split; [reflexivity|]. split; reflexivity.
Qed.

Lemma deleteTopic_owner (t : Topic.t) :
  params req !! "topicId" = Some id -> topics w !! id = Some t ->
  owner_of_topic w t = Some owner ->
  admits w (TopicDelete (JStr id)) = true ->
  exists w',
    deleteTopicHandler req w
    = (Returned {| status := OK;
                   json := JsonMessage "Topic deleted successfully" |}, w')
    /\ topics w' = delete id (topics w)
    /\ courses w' = courses w /\ teachers w' = teachers w.
Proof.
  intros Hp Ht Ho Ha. walk_chain. subst owner. eexists.
  unfold deleteTopicHandler. rewrite (param_bound _ _ _ Hp).
  run_handler. rewrite Ht. simpl.
  unfold include_course, include_teacher. simpl.
  match goal with E : courses _ !! _ = Some _ |- _ => rewrite E end. simpl.
  match goal with E : teachers _ !! _ = Some _ |- _ => rewrite E end.
  simpl. rewrite caller_owns, same_user_self. simpl.
  unfold topic_delete, write. rewrite Ha. simpl. rewrite Ht. simpl.
  split; [reflexivity|]. repeat split; reflexivity.
Qed.

Lemma deleteContent_owner (c : Content.t) :
  params req !! "contentId" = Some id -> contents w !! id = Some c ->
  owner_of_content w c = Some owner ->
  admits w (ContentDelete (JStr id)) = true ->
  exists w',
    deleteContentHandler req w
    = (Returned {| status := OK;
                   json := JsonMessage "Content deleted successfully" |}, w')
    /\ contents w' = delete id (contents w)
    /\ topics w' = topics w /\ courses w' = courses w
    /\ teachers w' = teachers w.
Proof.
  intros Hp Hk Ho Ha. walk_chain. subst owner. eexists.
  unfold deleteContentHandler. rewrite (param_bound _ _ _ Hp).
  run_handler. rewrite Hk. simpl.
  unfold include_topic, include_course, include_teacher. simpl.
  match goal with E : topics _ !! _ = Some _ |- _ => rewrite E end. simpl.
  match goal with E : courses _ !! _ = Some _ |- _ => rewrite E end. simpl.
  match goal with E : teachers _ !! _ = Some _ |- _ => rewrite E end.
  simpl. rewrite caller_owns, same_user_self. simpl.
  unfold content_delete, write. rewrite Ha. simpl. rewrite Hk. simpl.
  split; [reflexivity|]. repeat split; reflexivity.
Qed.

End OwnerDeletes.

(** X19: an owner's delete of a course, a topic or a content item that the
    store admits is answered 200 with the confirmation message; the target
    is gone, every other row of its table is the row it was, with the owner
    it had, and the same request sent again is answered 404.  What becomes
    of the rows below the target is the schema's and is not stated. *)
Theorem owner_deletes_once `{Storage} (k : Kind) (req : Request) (w : World)
    (id owner : Id) :
  params req !! target_param k = Some id ->
  target_owner w k id = Some owner ->
  userId req = Some owner ->
  admits w (delete_call k id) = true ->
  exists w',
    deleteHandler k req w
    = (Returned {| status := OK; json := JsonMessage (deleted_message k) |},
       w')
    /\ target_exists w' k id = false
    /\ (forall id', id' <> id ->
          same_row w w' k id'
          /\ target_owner w' k id' = target_owner w k id')
    /\ replied (fst (deleteHandler k req w')) = Some NOT_FOUND.
Proof.
  intros Hp Ho Hu Ha. destruct k; simpl in *.
  - destruct (courses w !! id) as [c|] eqn:Hc; simpl in Ho; [|discriminate].
    destruct (deleteCourse_owner req w id owner Hu c Hp Hc Ho Ha)
      as (w' & Hrun & Hcourses & Hteachers).
    exists w'. split; [exact Hrun|]. rewrite Hcourses, lookup_delete_eq.
    split; [reflexivity|]. split.
    + intros id' Hne. rewrite lookup_delete_ne by congruence.
      split; [reflexivity|]. unfold owner_of_course. rewrite Hteachers.
      reflexivity.
    + rewrite (deleteCourse_not_found req w' id Hp); [reflexivity|].
      rewrite Hcourses. apply lookup_delete_eq.
  - destruct (topics w !! id) as [t|] eqn:Ht; simpl in Ho; [|discriminate].
    destruct (deleteTopic_owner req w id owner Hu t Hp Ht Ho Ha)
      as (w' & Hrun & Htopics & Hcourses & Hteachers).
    exists w'. split; [exact Hrun|]. rewrite Htopics, lookup_delete_eq.
    split; [reflexivity|]. split.
    + intros id' Hne. rewrite lookup_delete_ne by congruence.
      split; [reflexivity|].
      unfold owner_of_topic, owner_of_course. rewrite Hcourses, Hteachers.
      reflexivity.
    + rewrite (deleteTopic_not_found req w' id Hp); [reflexivity|].
      rewrite Htopics. apply lookup_delete_eq.
  - destruct (contents w !! id) as [c|] eqn:Hc; simpl in Ho; [|discriminate].
    destruct (deleteContent_owner req w id owner Hu c Hp Hc Ho Ha)
      as (w' & Hrun & Hcontents & Htopics & Hcourses & Hteachers).
    exists w'. split; [exact Hrun|]. rewrite Hcontents, lookup_delete_eq.
    split; [reflexivity|]. split.
    + intros id' Hne. rewrite lookup_delete_ne by congruence.
      split; [reflexivity|].
      unfold owner_of_content, owner_of_topic, owner_of_course.
      rewrite Htopics, Hcourses, Hteachers. reflexivity.
    + rewrite (deleteContent_not_found req w' id Hp); [reflexivity|].
      rewrite Hcontents. apply lookup_delete_eq.
Qed.

(** X19, run: under cascading deletes the owner of "c1" deletes it; "c2" is
    the row it was; a second delete is a 404. *)
Lemma owner_deletes_once_witness :
  exists w',
    @deleteCourseHandler Fixture.cascading
      (Fixture.request (Some "u1") [("courseId", "c1")] [] None) Fixture.world
    = (Returned {| status := OK;
                   json := JsonMessage "Course deleted successfully" |}, w')
    /\ courses w' !! "c1" = None
    /\ courses w' !! "c2" = Some Fixture.drafts
    /\ replied (fst (@deleteCourseHandler Fixture.cascading
                       (Fixture.request (Some "u1") [("courseId", "c1")] []
                          None) w'))
       = Some NOT_FOUND.
Proof.
  destruct (@owner_deletes_once Fixture.cascading KCourse
              (Fixture.request (Some "u1") [("courseId", "c1")] [] None)
              Fixture.world "c1" "u1" eq_refl eq_refl eq_refl eq_refl)
    as (w' & Hrun & Hgone & Hothers & Hagain).
  exists w'. split; [exact Hrun|].
  split; [apply bool_decide_eq_false in Hgone;
          apply eq_None_not_Some; exact Hgone|].
  split; [|exact Hagain].
  destruct (Hothers "c2") as [Hrow _]; [discriminate|].
  simpl in Hrow. rewrite Hrow. reflexivity.
Defined.



(** ** The route table *)

Ltac route_cbn :=
  cbn [route dispatch match_path method pattern stack handler decode
         Method_eqb fmap option_fmap option_map] in *.

(** Goes through the thirteen routes of the table. *)
Ltac each_route Hin :=
  unfold CourseRoutes in Hin;
  repeat (apply elem_of_cons in Hin as [-> | Hin]);
  [.. | apply elem_of_nil in Hin; destruct Hin].

Lemma Method_eqb_eq (a b : Method) : Method_eqb a b = true -> a = b.
Proof. destruct a, b; simpl; congruence. Qed.

Lemma Method_eqb_refl (a : Method) : Method_eqb a a = true.
Proof. destruct a; reflexivity. Qed.

Lemma match_path_length (pattern : list Segment) (p : list string)
    (raw : list (string * string)) :
  match_path pattern p = Some raw -> length p = length pattern.
Proof.
  revert p raw. induction pattern as [|[s|n] pattern IH]; intros [|x p] raw;
    cbn [match_path]; try discriminate; [reflexivity| |].
  - destruct (same_literal s x); [|discriminate].
    intros Hm. simpl. f_equal. exact (IH _ _ Hm).
  - destruct (String.eqb x ""); [discriminate|].
    destruct (match_path pattern p) as [raw'|] eqn:Hm; [|discriminate].
    intros _. simpl. f_equal. exact (IH _ _ Hm).
Qed.

Lemma match_path_values (pattern : list Segment) (p : list string)
    (raw : list (string * string)) :
  match_path pattern p = Some raw -> Forall (fun kv => snd kv ∈ p) raw.
Proof.
  revert p raw. induction pattern as [|[s|n] pattern IH]; intros [|x p] raw;
    cbn [match_path]; try discriminate.
  - intros [= <-]. constructor.
  - destruct (same_literal s x); [|discriminate].
    intros Hm. eapply Forall_impl; [exact (IH _ _ Hm)|].
    intros kv Hin. right. exact Hin.
  - destruct (String.eqb x ""); [discriminate|].
    destruct (match_path pattern p) as [raw'|] eqn:Hm; [|discriminate].
    intros [= <-]. constructor; [left|].
    eapply Forall_impl; [exact (IH _ _ Hm)|].
    intros kv Hin. right. exact Hin.
Qed.



(** The parameters of a path whose segments can all be decoded can be. *)
Lemma decode_params_of_path (d : string -> option string)
    (pattern : list Segment) (p : list string) (raw : list (string * string)) :
  Forall (fun x => is_Some (d x)) p ->
  match_path pattern p = Some raw ->
  is_Some (decode_params d raw).
Proof.
  intros Hp Hm. unfold decode_params. apply fmap_is_Some, mapM_is_Some.
  eapply Forall_impl; [exact (match_path_values _ _ _ Hm)|].
  intros [n v] Hin. simpl in *. apply fmap_is_Some.
  rewrite Forall_forall in Hp. exact (Hp v Hin).
Qed.

(** What [dispatch] finds: the error of a route whose pattern matched and
    whose parameters could not be decoded, or a route of the method whose
    pattern matched, run on the decoded parameters. *)
Lemma dispatch_spec (routes : list Route) (m : Method) (p : list string)
    (req : Request) (h : Handler Response) :
  dispatch routes m p req = Some h ->
  (h = throw URIError
   /\ exists r raw, r ∈ routes /\ match_path (pattern r) p = Some raw
        /\ decode_params (decode r) raw = None)
  \/ (exists r raw ps,
        r ∈ routes /\ method r = m
        /\ match_path (pattern r) p = Some raw
        /\ decode_params (decode r) raw = Some ps
        /\ h = run (stack r) (handler r) (with_params ps req)).
Proof.
  induction routes as [|r routes IH]; cbn [dispatch]; [discriminate|].
  assert (Hrest : dispatch routes m p req = Some h ->
    (h = throw URIError
     /\ exists r0 raw, r0 ∈ r :: routes /\ match_path (pattern r0) p = Some raw
          /\ decode_params (decode r0) raw = None)
    \/ (exists r0 raw ps,
          r0 ∈ r :: routes /\ method r0 = m
          /\ match_path (pattern r0) p = Some raw
          /\ decode_params (decode r0) raw = Some ps
          /\ h = run (stack r0) (handler r0) (with_params ps req))).
  { intros Hd.
    destruct (IH Hd) as [(-> & r0 & raw & Hin & Hm & Hdec)
                        | (r0 & raw & ps & Hin & Hmeth & Hm & Hdec & ->)].
    - left. split; [reflexivity|]. exists r0, raw.
      split; [right; exact Hin | auto].
    - right. exists r0, raw, ps. split; [right; exact Hin | auto]. }
  destruct (match_path (pattern r) p) as [raw|] eqn:Hm; [|exact Hrest].
  destruct (decode_params (decode r) raw) as [ps|] eqn:Hdec.
  - destruct (Method_eqb (method r) m) eqn:Hmeth; [|exact Hrest].
    intros [= <-]. right. exists r, raw, ps.
    split; [left|]. split; [apply Method_eqb_eq; exact Hmeth | auto].
  - intros [= <-]. left. split; [reflexivity|]. exists r, raw.
    split; [left | auto].
Qed.

Lemma dispatch_unmatched (routes : list Route) (m : Method) (p : list string)
    (req : Request) :
  (forall r, r ∈ routes -> match_path (pattern r) p = None) ->
  dispatch routes m p req = None.
Proof.
  induction routes as [|r routes IH]; intros Hall; [reflexivity|].
  cbn [dispatch]. rewrite (Hall r) by left.
  apply IH. intros r0 Hin. apply Hall. right. exact Hin.
Qed.

Lemma run_first_throws (m : Middleware) (rest : list Middleware)
    (handler : Request -> Handler Response) (req : Request) (w w' : World)
    (e : Exn) :
  m req w = (Threw e, w') -> run (m :: rest) handler req w = (Threw e, w').
Proof. intros Hm. simpl. unfold bind. rewrite Hm. reflexivity. Qed.

Lemma run_first_answers (m : Middleware) (rest : list Middleware)
    (handler : Request -> Handler Response) (req : Request) (w w' : World)
    (r : Response) :
  m req w = (Returned (inl r), w') ->
  run (m :: rest) handler req w = (Returned r, w').
Proof. intros Hm. simpl. unfold bind. rewrite Hm. reflexivity. Qed.

Lemma match_one_literal (a : string) (p : list string)
    (raw : list (string * string)) :
  match_path [Lit a] p = Some raw ->
  exists x, p = [x] /\ same_literal a x = true.
Proof.
  destruct p as [|x [|y p]]; cbn [match_path]; try discriminate.
  - destruct (same_literal a x) eqn:E; [|discriminate].
    intros _. exists x. split; [reflexivity | exact E].
  - destruct (same_literal a x); discriminate.
Qed.

Section RouteTable.
Context `{Storage} `{Middlewares}.

Lemma CourseRoutes_decode (r : Route) :
  r ∈ CourseRoutes -> decode r = decodeURIComponent.
Proof. intros Hin. each_route Hin; reflexivity. Qed.

Lemma CourseRoutes_patterns (r : Route) :
  r ∈ CourseRoutes -> length (pattern r) = 1 \/ length (pattern r) = 2.
Proof. intros Hin. each_route Hin; auto. Qed.

(** With segments that can all be decoded, what [dispatch] finds in the
    table is a route of the method whose pattern matched. *)
Lemma dispatch_decodable (m : Method) (p : list string) (req : Request)
    (h : Handler Response) :
  Forall (fun x => is_Some (decodeURIComponent x)) p ->
  dispatch CourseRoutes m p req = Some h ->
  exists r raw, r ∈ CourseRoutes /\ method r = m
    /\ match_path (pattern r) p = Some raw.
Proof.
  intros Hp Hd.
  destruct (dispatch_spec _ _ _ _ _ Hd)
    as [(_ & r & raw & Hin & Hm & Hdec) | (r & raw & ps & Hin & Hmeth & Hm & _)];
    [|eauto].
  rewrite (CourseRoutes_decode r Hin) in Hdec.
  destruct (decode_params_of_path _ _ _ _ Hp Hm) as [ps Hps]. congruence.
Qed.

End RouteTable.

(** X21: a request that the table routes is handled by [GET /all] or
    [GET /public] (a one-segment path that reads "all" or "public" up to
    case), or ends in the router's error for a parameter that cannot be
    decoded, or goes to a route that runs [authenticate] first, on the
    request with the path parameters bound: when [authenticate] throws or
    answers, that is the outcome and the handler is not run.  Every such
    route other than the one-segment [GET /:courseId] runs [isTeacher]
    next. *)
Theorem routes_authenticate_first `{Storage} `{Middlewares} (m : Method)
    (p : list string) (req : Request) (h : Handler Response) :
  dispatch CourseRoutes m p req = Some h ->
  (m = GET
   /\ exists x, p = [x]
        /\ (same_literal "all" x = true \/ same_literal "public" x = true))
  \/ h = throw URIError
  \/ exists ps rest handler,
       h = run (authenticate :: rest) handler (with_params ps req)
       /\ ((m = GET /\ length p = 1) \/ exists rest', rest = isTeacher :: rest')
       /\ (forall w e w',
             authenticate (with_params ps req) w = (Threw e, w') ->
             h w = (Threw e, w'))
       /\ (forall w r w',
             authenticate (with_params ps req) w = (Returned (inl r), w') ->
             h w = (Returned r, w')).
Proof.
  intros Hd.
  destruct (dispatch_spec _ _ _ _ _ Hd)
    as [(-> & _) | (r & raw & ps & Hin & Hmeth & Hm & _ & ->)];
    [right; left; reflexivity|].
  assert (Hlen := match_path_length _ _ _ Hm).
  each_route Hin; route_cbn; subst m.
  1, 2: left; split; [reflexivity|];
        destruct (match_one_literal _ _ _ Hm) as (x & -> & Hx); eauto.
  all: right; right;
    lazymatch goal with
    | |- context [run (authenticate :: ?r) ?hd (with_params ?q _) = _] =>
        exists q, r, hd
    end;
    (split; [reflexivity|]);
    (split; [first [left; split; [reflexivity | exact Hlen]
                   | right; eexists; reflexivity]|]);
    split; [intros w e w'; apply run_first_throws
           | intros w r w'; apply run_first_answers].
Qed.

(** X21, run: with middlewares that turn everyone away, an anonymous
    [DELETE /c1] is refused and the store is left as it is. *)
Lemma routes_authenticate_first_witness :
  exists h,
    dispatch (@CourseRoutes Fixture.lenient Fixture.closed_door)
      DELETE ["c1"] Fixture.anonymous = Some h
    /\ h Fixture.world
       = (Threw (AppError UNAUTHORIZED "Not authorized"), Fixture.world).
Proof.
  eexists. split; [reflexivity|].
  destruct (@routes_authenticate_first Fixture.lenient Fixture.closed_door
              DELETE ["c1"] Fixture.anonymous _ eq_refl)
    as [[Hget _] | [Herr | (ps & rest & handler & _ & _ & Hthrow & _)]].
  - discriminate Hget.
  - apply (f_equal (fun f => fst (f Fixture.world))) in Herr.
    discriminate Herr.
  - apply Hthrow. reflexivity.
Defined.



(** X23: the router has no route for the empty path or for a path of three
    segments or more.  When the segments of the path can be decoded, it has
    none for a one-segment [POST] that does not read "create" up to case,
    nor for a two-segment [PUT] or [DELETE] whose first segment reads
    neither "topic" nor "content" up to case.  Such a request falls through
    with no handler run. *)
Theorem unrouted_requests `{Storage} `{Middlewares} (m : Method)
    (req : Request) :
  dispatch CourseRoutes m [] req = None
  /\ (forall a b c p, dispatch CourseRoutes m (a :: b :: c :: p) req = None)
  /\ (forall x, same_literal "create" x = false ->
        is_Some (decodeURIComponent x) ->
        dispatch CourseRoutes POST [x] req = None)
  /\ (forall a b,
        same_literal "topic" a = false -> same_literal "content" a = false ->
        is_Some (decodeURIComponent a) -> is_Some (decodeURIComponent b) ->
        dispatch CourseRoutes PUT [a; b] req = None
        /\ dispatch CourseRoutes DELETE [a; b] req = None).
Proof.
  assert (Hlength : forall p, length p <> 1 -> length p <> 2 ->
            dispatch CourseRoutes m p req = None).
  { intros p H1' H2'. apply dispatch_unmatched. intros r Hin.
    destruct (match_path (pattern r) p) as [raw|] eqn:Hm; [|reflexivity].
    apply match_path_length in Hm.
    destruct (CourseRoutes_patterns r Hin); congruence. }
  split; [apply Hlength; discriminate|].
  split; [intros a b c p; apply Hlength; discriminate|].
  split.
  - intros x Hx Hdec.
    destruct (dispatch CourseRoutes POST [x] req) as [h|] eqn:Hd;
      [exfalso | reflexivity].
    apply dispatch_decodable in Hd as (r & raw & Hin & Hmeth & Hm);
      [|repeat constructor; exact Hdec].
    each_route Hin; route_cbn; try discriminate Hmeth;
      repeat (case_match; route_cbn); congruence.
  - intros a b Ht Hc Hda Hdb.
    assert (Hnone : forall m', m' = PUT \/ m' = DELETE ->
              dispatch CourseRoutes m' [a; b] req = None).
    { intros m' Hm'.
      destruct (dispatch CourseRoutes m' [a; b] req) as [h|] eqn:Hd;
        [exfalso | reflexivity].
      apply dispatch_decodable in Hd as (r & raw & Hin & Hmeth & Hm);
        [|repeat constructor; assumption].
      each_route Hin; route_cbn;
        try (destruct Hm' as [-> | ->]; discriminate Hmeth);
        repeat (case_match; route_cbn); congruence. }
    split; apply Hnone; auto.
Qed.

(** X23, run: [POST /c1] and [DELETE /course/c1] reach no handler. *)
Lemma unrouted_requests_witness :
  dispatch (@CourseRoutes Fixture.lenient Fixture.open_door) POST ["c1"]
    Fixture.anonymous = None
  /\ dispatch (@CourseRoutes Fixture.lenient Fixture.open_door)
       DELETE ["course"; "c1"] Fixture.anonymous = None.
Proof.
  destruct (@unrouted_requests Fixture.lenient Fixture.open_door POST
              Fixture.anonymous) as (_ & _ & Hpost & Htwo).
  split.
  - apply Hpost; [reflexivity | eexists; reflexivity].
  - apply (Htwo "course" "c1"); solve [reflexivity | eexists; reflexivity].
Defined.

(** The router on sample paths: letters are read without regard to case, an
    escaped segment is not a literal, and a parameter is decoded. *)
Example router_reads_literals_without_case :
  dispatch (@CourseRoutes Fixture.lenient Fixture.open_door) POST ["CREATE"]
    Fixture.anonymous
  = Some (run [@authenticate Fixture.open_door; @isTeacher Fixture.open_door;
               @upload_single Fixture.open_door "image"]
            (@createCourseHandler Fixture.lenient) (with_params ∅ Fixture.anonymous))
  /\ dispatch (@CourseRoutes Fixture.lenient Fixture.open_door)
       PUT ["Topic"; "p1"] Fixture.anonymous
     = Some (run [@authenticate Fixture.open_door;
                  @isTeacher Fixture.open_door]
               (@updateTopicHandler Fixture.lenient)
               (with_params {[ "topicId" := "p1" ]} Fixture.anonymous))
  /\ dispatch (@CourseRoutes Fixture.lenient Fixture.open_door)
       DELETE ["%zz"] Fixture.anonymous
     = Some (throw URIError).
Proof. repeat split. Qed.

(** Deleting "c1" under cascading deletes takes its topic, the content of
    the topic and its enrollment with it, and leaves the exam of "c2"; under
    the lenient engine they stay. *)
Example delete_under_two_referential_actions :
  let req := Fixture.request (Some "u1") [("courseId", "c1")] [] None in
  let cascaded := snd (@deleteCourseHandler Fixture.cascading req Fixture.world) in
  let orphaned := snd (@deleteCourseHandler Fixture.lenient req Fixture.world) in
  (topics cascaded !! "p1", contents cascaded !! "k1", enrollments cascaded,
   exams cascaded)
  = (None, None, [], exams Fixture.world)
  /\ (topics orphaned !! "p1", contents orphaned !! "k1",
      enrollments orphaned)
     = (Some Fixture.chapter1, Some Fixture.link, enrollments Fixture.world).
Proof. split; vm_compute; reflexivity. Qed.
